(** * The OHLCV data warehouse: cache-or-fetch orchestration

    A shallow embedding of [backend/src/data/warehouse.py]
    ([AlphaVantageClient], [DataWarehouse]) and of the [/refresh] route of
    [backend/src/api/routes/data.py], followed by the properties of the
    quote-series specification checked against it. *)

From Stdlib Require Import List ZArith Lia Bool String Ascii.
From Stdlib Require Import Sorting.Sorted Sorting.Permutation.
From Stdlib Require Import Floats.PrimFloat.
From Stdlib Require Import Numbers.Cyclic.Int63.Uint63 Numbers.DecimalString.
Import ListNotations.

Local Open Scope string_scope.
Local Open Scope Z_scope.

(** ** Python values *)

(** A naive [datetime]: its position on the time line, in microseconds
    counted from 1970-01-01T00:00:00.  Naive datetimes are totally ordered
    and compare like these integers. *)
Definition datetime := Z.

(** Days between 1970-01-01 and the civil date [y]-[m]-[d] (proleptic
    Gregorian calendar, as Python's [date.toordinal] up to the origin). *)
Definition days_from_civil (y m d : Z) : Z :=
  let y' := if m <=? 2 then y - 1 else y in
  let era := y' / 400 in
  let yoe := y' - era * 400 in
  let mp := (m + 9) mod 12 in
  let doy := (153 * mp + 2) / 5 + d - 1 in
  let doe := yoe * 365 + yoe / 4 - yoe / 100 + doy in
  era * 146097 + doe - 719468.

Definition microseconds_per_day : Z := 86400 * 1000000.

(** [datetime(y, m, d)]: midnight of that day. *)
Definition datetime_ymd (y m d : Z) : datetime :=
  days_from_civil y m d * microseconds_per_day.

(** Exceptions, by the classes the handlers of the program tell apart.  An
    instance of a subclass is recorded under its base ([ValueError] also
    stands for its subclasses); [OtherError] is any other [Exception], with
    its [str]. *)
Inductive Exn : Type :=
| KeyError (key : string)
| ValueError (msg : string)
| HTTPException (status_code : Z) (detail : string)
| OtherError (msg : string).

(** The outcome of evaluating an expression that may raise. *)
Inductive Exc (A : Type) : Type :=
| ok (a : A)
| raised (e : Exn).
Arguments ok {A} a.
Arguments raised {A} e.

Definition exc_bind {A B} (c : Exc A) (k : A -> Exc B) : Exc B :=
  match c with
  | ok a => k a
  | raised e => raised e
  end.

Declare Scope exc_scope.
Delimit Scope exc_scope with exc.
Notation "'let?' x ':=' c 'in' k" := (exc_bind c (fun x => k))
  (at level 10, x name, c at level 100, k at level 200) : exc_scope.

(** A decoded JSON document, as [response.json()] hands it over.  A [dict]
    is kept as the list of its items in insertion order. *)
#[warnings="-register-all"]
Inductive Json : Type :=
| JNull
| JBool (b : bool)
| JInt (n : Z)
| JFloat (x : float)
| JStr (s : string)
| JArr (items : list Json)
| JObj (items : list (string * Json)).

(** [key in d] and [d[key]] on the items of a dict. *)
Fixpoint dict_get (key : string) (items : list (string * Json)) : option Json :=
  match items with
  | [] => None
  | (k, v) :: rest => if String.eqb k key then Some v else dict_get key rest
  end.

Definition dict_contains (key : string) (items : list (string * Json)) : bool :=
  match dict_get key items with
  | Some _ => true
  | None => false
  end.

Definition dict_keys (items : list (string * Json)) : list string :=
  map fst items.

(** Truth value of a decoded JSON value ([if not time_series]). *)
Definition truthy (j : Json) : bool :=
  match j with
  | JNull => false
  | JBool b => b
  | JInt n => negb (n =? 0)
  | JFloat x => negb (PrimFloat.eqb x 0%float)
  | JStr s => negb (String.eqb s "")
  | JArr items => match items with [] => false | _ => true end
  | JObj items => match items with [] => false | _ => true end
  end.

(** [values[key]] for a string key: a dict is looked up ([KeyError] when the
    key is absent); every other value raises [TypeError]. *)
Definition getitem (values : Json) (key : string) : Exc Json :=
  match values with
  | JObj items =>
      match dict_get key items with
      | Some v => ok v
      | None => raised (KeyError key)
      end
  | _ => raised (OtherError "TypeError")
  end.

(** ** The data classes of [models/data.py] *)

(** [OHLCVData]: the in-memory quote of one time bucket. *)
Record OHLCVData : Type := mkOHLCVData {
  timestamp : datetime;
  open : float;
  high : float;
  low : float;
  close : float;
  volume : float
}.

(** [OHLCVRecord]: a row of the cache table. *)
Record OHLCVRecord : Type := mkOHLCVRecord {
  rec_symbol : string;
  rec_timestamp : datetime;
  rec_open : float;
  rec_high : float;
  rec_low : float;
  rec_close : float;
  rec_volume : float
}.

(** A line of a [pandas.DataFrame] with the six columns that
    [_records_to_dataframe] and [_ohlcv_to_dataframe] build; the frame is the
    list of its lines in index order. *)
Record Row : Type := mkRow {
  row_timestamp : datetime;
  row_open : float;
  row_high : float;
  row_low : float;
  row_close : float;
  row_volume : float
}.

Definition DataFrame := list Row.

(** [low <= open, close <= high] and [low <= high], and not [high < low],
    as floats compare (a NaN among them fails it). *)
Definition ohlc_ordered (o h l c : float) : bool :=
  PrimFloat.leb l o && PrimFloat.leb o h &&
  PrimFloat.leb l c && PrimFloat.leb c h &&
  PrimFloat.leb l h && negb (PrimFloat.ltb h l).

(** Modelled from the spec: the constructor of the class [OHLCVData], which
    is declared in [models/data.py] and is not among the sources.  Section 3
    of the specification: open, high, low and close "must satisfy
    low <= open,close <= high and low <= high; a record violating this is
    discarded rather than stored"; section 8: "a fetched record with
    high < low is excluded".  The constructor builds the object from its six
    keyword arguments when the four prices are in that order, and raises a
    validation error otherwise, which is a [ValueError]. *)
Definition OHLCVData_validated (ts : datetime) (o h l c v : float) : Exc OHLCVData :=
  if ohlc_ordered o h l c then ok (mkOHLCVData ts o h l c v)
  else raised (ValueError "low <= open, close <= high does not hold").

(** ** What the program takes from outside

    The builtins and helpers whose code is not part of the warehouse, and
    the surroundings of one call.  Each is kept as it is used: a function
    that returns or raises. *)
Record Runtime : Type := mkRuntime {
  (** [float(v)] on a decoded JSON value *)
  py_float : Json -> Exc float;
  (** [datetime.fromisoformat(s)] *)
  fromisoformat : string -> Exc datetime;
  (** [utils.helpers.parse_date(s)] *)
  parse_date : string -> Exc datetime;
  (** the constructor of [OHLCVData] applied to its six keyword arguments:
      it yields the object, or raises when the class rejects them *)
  OHLCVData_init : datetime -> float -> float -> float -> float -> float ->
                   Exc OHLCVData;
  (** [str(v)] of a decoded JSON value, [str(list(d.keys()))], [str(e)] of a
      [KeyError] and of an [HTTPException], as f-strings format them *)
  str_json : Json -> string;
  str_keys : list string -> string;
  str_key_error : string -> string;
  str_http_exception : Z -> string -> string;
  (** [datetime.now()] during the call *)
  now : datetime;
  (** what [client.get(BASE_URL, params)], [raise_for_status()] and
      [response.json()] give for a symbol and an output size: the decoded
      body, or the exception of the transport *)
  upstream : string -> string -> Exc Json
}.

(** ** Effects

    A call runs against the cache table and the upstream provider.  [table]
    is the content of the [OHLCVRecord] table; [requests] is the journal of
    the GET requests sent to the provider, oldest first, each with its
    [symbol] and [outputsize] parameters. *)
Record World : Type := mkWorld {
  table : list OHLCVRecord;
  requests : list (string * string)
}.

(** A coroutine of the program: from a world to its outcome and the world it
    leaves.  What was done before an exception stays done. *)
Definition M (A : Type) : Type := World -> Exc A * World.

Definition ret {A} (a : A) : M A := fun w => (ok a, w).

Definition raise {A} (e : Exn) : M A := fun w => (raised e, w).

Definition bind {A B} (c : M A) (k : A -> M B) : M B :=
  fun w =>
    match c w with
    | (ok a, w') => k a w'
    | (raised e, w') => (raised e, w')
    end.

(** [try: c  except Exception as e: h e] *)
Definition try_except {A} (c : M A) (h : Exn -> M A) : M A :=
  fun w =>
    match c w with
    | (ok a, w') => (ok a, w')
    | (raised e, w') => h e w'
    end.

(** An expression that may raise, evaluated inside a coroutine. *)
Definition lift {A} (c : Exc A) : M A := fun w => (c, w).

Declare Scope warehouse_scope.
Delimit Scope warehouse_scope with warehouse.
Notation "x <- c ;; k" := (bind c (fun x => k))
  (at level 61, c at next level, right associativity) : warehouse_scope.
Notation "c ;; k" := (bind c (fun _ => k))
  (at level 61, right associativity) : warehouse_scope.

Local Open Scope exc_scope.
Local Open Scope warehouse_scope.

(** ** Sorting and selecting by timestamp *)

Section ByKey.
Context {A : Type} (key : A -> Z).

(** [x] goes before the first element whose key is not smaller: an element
    met earlier stays before its equals, as a stable sort leaves it. *)
Fixpoint insert_by (x : A) (l : list A) : list A :=
  match l with
  | [] => [x]
  | y :: l' => if key x <=? key y then x :: y :: l' else y :: insert_by x l'
  end.

(** [sorted(l, key=key)] *)
Fixpoint sorted_by (l : list A) : list A :=
  match l with
  | [] => []
  | x :: l' => insert_by x (sorted_by l')
  end.

(** [lo <= key x <= hi] *)
Definition in_range (lo hi : Z) (x : A) : bool :=
  (lo <=? key x) && (key x <=? hi).

(** Ascending by key. *)
Definition ascending (l : list A) : Prop :=
  StronglySorted (fun x y => key x <= key y) l.
End ByKey.

(** ** [class AlphaVantageClient] *)

Definition rate_limit_message : string :=
  "API rate limit exceeded. Please wait and try again.".

Section AlphaVantageClient.
Variable rt : Runtime.

(** The body of the [try] in [_parse_time_series]: the keyword arguments
    are evaluated from left to right, then the object is built. *)
Definition parse_entry (timestamp_str : string) (values : Json) : Exc OHLCVData :=
  let? ts := fromisoformat rt timestamp_str in
  let? o := (let? x := getitem values "1. open" in py_float rt x) in
  let? h := (let? x := getitem values "2. high" in py_float rt x) in
  let? l := (let? x := getitem values "3. low" in py_float rt x) in
  let? c := (let? x := getitem values "4. close" in py_float rt x) in
  let? v := (let? x := getitem values "5. volume" in py_float rt x) in
  OHLCVData_init rt ts o h l c v.

(** The [for] loop of [_parse_time_series] over the remaining items, with
    the list [ohlcv_data] built so far.  [except (KeyError, ValueError)]
    goes on with the next item; any other exception leaves the loop. *)
Fixpoint parse_loop (items : list (string * Json)) (ohlcv_data : list OHLCVData)
  : Exc (list OHLCVData) :=
  match items with
  | [] => ok ohlcv_data
  | (timestamp_str, values) :: rest =>
      match parse_entry timestamp_str values with
      | ok ohlcv => parse_loop rest (ohlcv_data ++ [ohlcv])
      | raised (KeyError _) => parse_loop rest ohlcv_data
      | raised (ValueError _) => parse_loop rest ohlcv_data
      | raised e => raised e
      end
  end.

(** [_parse_time_series]: [time_series.items()] needs a dict; the loop;
    then [sorted] by timestamp, which compares naive datetimes (see
    [datetime]) and so always returns. *)
Definition _parse_time_series (time_series : Json) : Exc (list OHLCVData) :=
  match time_series with
  | JObj items =>
      let? ohlcv_data := parse_loop items [] in
      ok (sorted_by timestamp ohlcv_data)
  | _ => raised (OtherError "AttributeError")
  end.

(** [client.get], [raise_for_status] and [response.json()]: one request
    goes out, whatever comes back. *)
Definition client_get (symbol outputsize : string) : M Json :=
  fun w =>
    (upstream rt symbol outputsize,
     {| table := table w;
        requests := (requests w ++ [(symbol, outputsize)])%list |}).

Definition fetch_daily (symbol outputsize : string) : M (list OHLCVData) :=
  data <- client_get symbol outputsize ;;
  match data with
  | JObj items =>
      match dict_get "Error Message" items with
      | Some message =>
          raise (ValueError ("Alpha Vantage error: " ++ str_json rt message))
      | None =>
          if dict_contains "Note" items then
            raise (ValueError rate_limit_message)
          else
            match dict_get "Information" items with
            | Some information =>
                raise (ValueError ("Alpha Vantage: " ++ str_json rt information))
            | None =>
                let time_series :=
                  match dict_get "Time Series (Daily)" items with
                  | Some v => v
                  | None => JObj []
                  end in
                if negb (truthy time_series) then
                  raise (ValueError ("No time series data in response. Keys: "
                                     ++ str_keys rt (dict_keys items)))
                else
                  lift (_parse_time_series time_series)
            end
      end
  | _ => raise (OtherError "AttributeError")
  end.
End AlphaVantageClient.

(** ** [class DataWarehouse] *)

(** The key of a row of the cache table. *)
Definition rec_key (r : OHLCVRecord) : string * datetime :=
  (rec_symbol r, rec_timestamp r).

(** [select(OHLCVRecord).where(symbol == s, timestamp == ts)] *)
Definition select_by_key (s : string) (ts : datetime) (rows : list OHLCVRecord)
  : list OHLCVRecord :=
  filter (fun r => String.eqb (rec_symbol r) s && (rec_timestamp r =? ts)) rows.

(** [result.scalar_one_or_none()] *)
Definition scalar_one_or_none (rows : list OHLCVRecord) : Exc (option OHLCVRecord) :=
  match rows with
  | [] => ok None
  | [r] => ok (Some r)
  | _ => raised (OtherError "MultipleResultsFound")
  end.

(** The row [save_ohlcv_data] builds for a quote. *)
Definition to_record (symbol : string) (ohlcv : OHLCVData) : OHLCVRecord :=
  {| rec_symbol := symbol;
     rec_timestamp := timestamp ohlcv;
     rec_open := open ohlcv;
     rec_high := high ohlcv;
     rec_low := low ohlcv;
     rec_close := close ohlcv;
     rec_volume := volume ohlcv |}.

(** The [for] loop of [save_ohlcv_data].  [rows] is the table as the session
    sees it: the rows it found and the rows it has added so far, which the
    session flushes before each of its queries. *)
Fixpoint save_loop (symbol : string) (data : list OHLCVData) (rows : list OHLCVRecord)
  : Exc (list OHLCVRecord) :=
  match data with
  | [] => ok rows
  | ohlcv :: rest =>
      let? existing := scalar_one_or_none (select_by_key symbol (timestamp ohlcv) rows) in
      match existing with
      | Some _ => save_loop symbol rest rows
      | None => save_loop symbol rest (rows ++ [to_record symbol ohlcv])
      end
  end.

(** [save_ohlcv_data]: the loop, then [commit].  When the loop raises,
    nothing was committed and the table is as before. *)
Definition save_ohlcv_data (symbol : string) (data : list OHLCVData) : M unit :=
  fun w =>
    match save_loop symbol data (table w) with
    | ok rows => (ok tt, {| table := rows; requests := requests w |})
    | raised e => (raised e, w)
    end.

(** The query of [_get_cached_data] on a table:
    [where(symbol == s, timestamp >= start, timestamp <= end)
     .order_by(timestamp)]. *)
Definition range_query (symbol : string) (start_date end_date : datetime)
  (rows : list OHLCVRecord) : list OHLCVRecord :=
  sorted_by rec_timestamp
    (filter (fun r => String.eqb (rec_symbol r) symbol
                      && in_range rec_timestamp start_date end_date r) rows).

Definition _get_cached_data (symbol : string) (start_date end_date : datetime)
  : M (list OHLCVRecord) :=
  fun w => (ok (range_query symbol start_date end_date (table w)), w).

Definition _records_to_dataframe (records : list OHLCVRecord) : DataFrame :=
  map (fun r => {| row_timestamp := rec_timestamp r;
                   row_open := rec_open r;
                   row_high := rec_high r;
                   row_low := rec_low r;
                   row_close := rec_close r;
                   row_volume := rec_volume r |}) records.

Definition _ohlcv_to_dataframe (ohlcv_list : list OHLCVData) : DataFrame :=
  map (fun o => {| row_timestamp := timestamp o;
                   row_open := open o;
                   row_high := high o;
                   row_low := low o;
                   row_close := close o;
                   row_volume := volume o |}) ohlcv_list.

(** [df[(df['timestamp'] >= start_dt) & (df['timestamp'] <= end_dt)]] *)
Definition filter_by_date_range (start_dt end_dt : datetime) (df : DataFrame) : DataFrame :=
  filter (in_range row_timestamp start_dt end_dt) df.

(** [datetime(2000, 1, 1)] *)
Definition default_start : datetime := datetime_ymd 2000 1 1.

Section DataWarehouse.
Variable rt : Runtime.

(** [parse_date(d) if d else default]: [None] and the empty string both
    take the default. *)
Definition date_or (d : option string) (default : datetime) : Exc datetime :=
  match d with
  | None => ok default
  | Some s => if String.eqb s "" then ok default else parse_date rt s
  end.

(** [get_ohlcv_data].  The enclosing [try ... except Exception: print;
    raise] raises again what it caught and is left out. *)
Definition get_ohlcv_data (symbol : string) (start_date end_date : option string)
  : M DataFrame :=
  start_dt <- lift (date_or start_date default_start) ;;
  end_dt <- lift (date_or end_date (now rt)) ;;
  cached_data <- _get_cached_data symbol start_dt end_dt ;;
  df <- match cached_data with
        | _ :: _ => ret (_records_to_dataframe cached_data)
        | [] =>
            ohlcv_data <- fetch_daily rt symbol "compact" ;;
            match ohlcv_data with
            | [] => raise (ValueError ("No data returned from Alpha Vantage for "
                                       ++ symbol))
            | _ :: _ =>
                save_ohlcv_data symbol ohlcv_data ;;
                ret (_ohlcv_to_dataframe ohlcv_data)
            end
        end ;;
  ret (match df with
       | [] => df
       | _ :: _ => filter_by_date_range start_dt end_dt df
       end).

(** ** The [/refresh] route *)

(** [str(e)] *)
Definition str_exn (e : Exn) : string :=
  match e with
  | KeyError key => str_key_error rt key
  | ValueError msg => msg
  | HTTPException status_code detail => str_http_exception rt status_code detail
  | OtherError msg => msg
  end.

(** The body of the [try] of [refresh_data]; the result is the [records]
    count of the response. *)
Definition refresh_body (symbol : string) : M Z :=
  ohlcv_data <- fetch_daily rt symbol "compact" ;;
  match ohlcv_data with
  | [] => raise (HTTPException 404 ("No data returned for symbol " ++ symbol))
  | _ :: _ =>
      save_ohlcv_data symbol ohlcv_data ;;
      ret (Z.of_nat (List.length ohlcv_data))
  end.

Definition refresh_data (symbol : string) : M Z :=
  try_except (refresh_body symbol)
    (fun e =>
       match e with
       | ValueError _ => raise (HTTPException 400 (str_exn e))
       | _ => raise (HTTPException 500 ("Error refreshing data: " ++ str_exn e))
       end).
End DataWarehouse.

(** ** [AlphaVantageClient.fetch_intraday] *)

(** [needle in data] for a string needle, on a decoded JSON value that is a
    list (some element equals the needle) or a string (the needle occurs in
    it).  On a dict it is [dict_contains]; [None], booleans and numbers are
    not iterable and raise [TypeError]. *)
Definition is_text (needle : string) (j : Json) : bool :=
  match j with
  | JStr s => String.eqb s needle
  | _ => false
  end.

Definition occurs_in (needle s : string) : bool :=
  match String.index 0 needle s with
  | Some _ => true
  | None => false
  end.

Section Intraday.
Variable rt : Runtime.
(** What the provider answers to an intraday request for a symbol and an
    interval. *)
Variable upstream_intraday : string -> string -> Exc Json.

(** The request of [fetch_intraday]; its [outputsize] is always
    ["compact"]. *)
Definition client_get_intraday (symbol interval : string) : M Json :=
  fun w =>
    (upstream_intraday symbol interval,
     {| table := table w;
        requests := (requests w ++ [(symbol, "compact")])%list |}).

(** [fetch_intraday].  It has neither the ["Information"] test nor the test
    for an empty time series of [fetch_daily].  A body that is no dict goes
    through the two [in] tests as Python evaluates them, then fails at
    [data['Error Message']] or at [data.get]. *)
Definition fetch_intraday (symbol interval : string) : M (list OHLCVData) :=
  data <- client_get_intraday symbol interval ;;
  match data with
  | JObj items =>
      match dict_get "Error Message" items with
      | Some message =>
          raise (ValueError ("Alpha Vantage error: " ++ str_json rt message))
      | None =>
          if dict_contains "Note" items then
            raise (ValueError rate_limit_message)
          else
            let time_series :=
              match dict_get ("Time Series (" ++ interval ++ ")") items with
              | Some v => v
              | None => JObj []
              end in
            lift (_parse_time_series rt time_series)
      end
  | JArr elements =>
      if existsb (is_text "Error Message") elements then
        raise (OtherError "TypeError")
      else if existsb (is_text "Note") elements then
        raise (ValueError rate_limit_message)
      else raise (OtherError "AttributeError")
  | JStr s =>
      if occurs_in "Error Message" s then raise (OtherError "TypeError")
      else if occurs_in "Note" s then raise (ValueError rate_limit_message)
      else raise (OtherError "AttributeError")
  | JNull | JBool _ | JInt _ | JFloat _ => raise (OtherError "TypeError")
  end.
End Intraday.

(** ** The [/ohlcv] route *)

Module Routes.
Section Ohlcv.
Variable rt : Runtime.
(** [data.transformations.dataframe_to_ohlcv] and the constructor of the
    response model [OHLCVResponse(symbol=, data=, cached=)], with the types
    of what they build. *)
Variables (T R : Type).
Variable dataframe_to_ohlcv : DataFrame -> Exc T.
Variable OHLCVResponse_init : string -> T -> bool -> Exc R.

(** The body of the [try] of the route.  [warehouse.close()] releases the
    HTTP client and touches neither the table nor the journal. *)
Definition ohlcv_body (symbol : string) (start_date end_date : option string) : M R :=
  df <- get_ohlcv_data rt symbol start_date end_date ;;
  match df with
  | [] => raise (HTTPException 404 ("No data found for symbol " ++ symbol))
  | _ :: _ =>
      ohlcv_data <- lift (dataframe_to_ohlcv df) ;;
      let cached := 0 <? Z.of_nat (List.length df) in
      lift (OHLCVResponse_init symbol ohlcv_data cached)
  end.

(** The route [get_ohlcv_data] of [routes/data.py]; its [interval]
    parameter is not used. *)
Definition get_ohlcv_data (symbol : string) (start_date end_date : option string) : M R :=
  try_except (ohlcv_body symbol start_date end_date)
    (fun e =>
       match e with
       | ValueError _ => raise (HTTPException 400 (str_exn rt e))
       | _ => raise (HTTPException 500 ("Error fetching data: " ++ str_exn rt e))
       end).
End Ohlcv.
End Routes.

(** ** Vocabulary of the statements *)

(** The world after one request for [symbol] went out. *)
Definition sent (symbol outputsize : string) (w : World) : World :=
  {| table := table w;
     requests := (requests w ++ [(symbol, outputsize)])%list |}.

(** An entry that the clause [except (KeyError, ValueError)] of
    [_parse_time_series] catches, and no more than that: building its object
    raises [KeyError] (a field is missing in a dict) or [ValueError] (the
    text of the timestamp or of a number cannot be read, or the class
    refuses the values).  An entry that raises anything else, a [TypeError]
    for a [null] price or for an entry that is no dict, is not of these. *)
Definition caught (rt : Runtime) (timestamp_str : string) (values : Json) : Prop :=
  (exists key, parse_entry rt timestamp_str values = raised (KeyError key)) \/
  (exists msg, parse_entry rt timestamp_str values = raised (ValueError msg)).

(** No two rows of the table share their [(symbol, timestamp)]. *)
Definition unique_keys (rows : list OHLCVRecord) : Prop :=
  NoDup (map rec_key rows).

(** The table holds a row for [(symbol, ts)]. *)
Definition stored (symbol : string) (ts : datetime) (rows : list OHLCVRecord) : Prop :=
  exists r, In r rows /\ rec_symbol r = symbol /\ rec_timestamp r = ts.

(** The objects of the entries that could be built, in the order of the
    payload. *)
Definition built (rt : Runtime) (series : list (string * Json)) : list OHLCVData :=
  flat_map (fun kv => match parse_entry rt (fst kv) (snd kv) with
                      | ok o => [o]
                      | raised _ => []
                      end) series.

(** An entry that is either built or dropped: it does not end the loop. *)
Definition harmless (rt : Runtime) (kv : string * Json) : Prop :=
  caught rt (fst kv) (snd kv) \/ exists o, parse_entry rt (fst kv) (snd kv) = ok o.

(** An entry as the provider writes it: a dict whose values are text. *)
Definition text_fields (fields : list (string * Json)) : Prop :=
  forall key v, dict_get key fields = Some v -> exists s, v = JStr s.

(** [select_by_key] finds something. *)
Definition is_stored (symbol : string) (rows : list OHLCVRecord) (o : OHLCVData) : bool :=
  match select_by_key symbol (timestamp o) rows with
  | [] => false
  | _ :: _ => true
  end.

(** An exception the [except (KeyError, ValueError)] clause lets through. *)
Definition uncaught (e : Exn) : Prop :=
  (forall key, e <> KeyError key) /\ (forall msg, e <> ValueError msg).

(** A line of a frame holds a record, or a quote: the same timestamp and
    the same five numbers. *)
Definition row_holds_record (r : OHLCVRecord) (row : Row) : Prop :=
  row_timestamp row = rec_timestamp r /\
  row_open row = rec_open r /\
  row_high row = rec_high r /\
  row_low row = rec_low r /\
  row_close row = rec_close r /\
  row_volume row = rec_volume r.


(** A runtime whose [OHLCVData] is the class of the specification. *)
Definition validating (rt : Runtime) : Prop :=
  forall ts o h l c v,
    OHLCVData_init rt ts o h l c v = OHLCVData_validated ts o h l c v.

(** The prices of a quote, and of a row, are in order. *)
Definition quote_ordered (q : OHLCVData) : Prop :=
  ohlc_ordered (open q) (high q) (low q) (close q) = true.

Definition record_ordered (r : OHLCVRecord) : Prop :=
  ohlc_ordered (rec_open r) (rec_high r) (rec_low r) (rec_close r) = true.

(** [float(values[key])], as [_parse_time_series] reads each number. *)
Definition read_number (rt : Runtime) (values : Json) (key : string) : Exc float :=
  let? x := getitem values key in py_float rt x.

(** The same runtime at another reading of the clock: [datetime.now()] is
    read anew by each call. *)
Definition at_time (rt : Runtime) (t : datetime) : Runtime :=
  {| py_float := py_float rt;
     fromisoformat := fromisoformat rt;
     parse_date := parse_date rt;
     OHLCVData_init := OHLCVData_init rt;
     str_json := str_json rt;
     str_keys := str_keys rt;
     str_key_error := str_key_error rt;
     str_http_exception := str_http_exception rt;
     now := t;
     upstream := upstream rt |}.

(** ** A runtime for the examples

    The examples run the program on payloads written out in full.  Their
    runtime reads what those payloads hold: prices written as unsigned
    decimal integers below 2^53, which [float] converts exactly, and dates
    written [YYYY-MM-DD], which [fromisoformat] and [parse_date] place at
    midnight.  Other text is answered with [ValueError], and [None], lists
    and dicts with [TypeError], as [float] answers them.  [OHLCVData] is
    the class of the specification, [OHLCVData_validated]. *)
Module Sample.

Definition digit_of (c : ascii) : option Z :=
  let n := Z.of_N (N_of_ascii c) in
  if (48 <=? n) && (n <=? 57) then Some (n - 48) else None.

Fixpoint digits_value (s : string) (acc : Z) : option Z :=
  match s with
  | EmptyString => Some acc
  | String c rest =>
      match digit_of c with
      | Some d => digits_value rest (10 * acc + d)
      | None => None
      end
  end.

Definition unsigned_decimal (s : string) : option Z :=
  match s with
  | EmptyString => None
  | _ => digits_value s 0
  end.

Definition float_of_Z (z : Z) : float := PrimFloat.of_uint63 (Uint63.of_Z z).

Definition float (v : Json) : Exc PrimFloat.float :=
  match v with
  | JStr s =>
      match unsigned_decimal s with
      | Some z =>
          if z <? 2 ^ 53 then ok (float_of_Z z)
          else raised (ValueError ("could not convert string to float: " ++ s))
      | None => raised (ValueError ("could not convert string to float: " ++ s))
      end
  | JFloat x => ok x
  | JInt n =>
      if (0 <=? n) && (n <? 2 ^ 53) then ok (float_of_Z n)
      else raised (OtherError "OverflowError")
  | JBool b => ok (if b then 1%float else 0%float)
  | JNull | JArr _ | JObj _ => raised (OtherError "TypeError")
  end.

Definition is_leap (y : Z) : bool :=
  ((y mod 4 =? 0) && negb (y mod 100 =? 0)) || (y mod 400 =? 0).

Definition days_in_month (y m : Z) : Z :=
  if m =? 2 then (if is_leap y then 29 else 28)
  else if (m =? 4) || (m =? 6) || (m =? 9) || (m =? 11) then 30
  else 31.

(** [YYYY-MM-DD] *)
Definition date (s : string) : Exc datetime :=
  let invalid := raised (ValueError ("Invalid isoformat string: " ++ s)) in
  match s with
  | String y1 (String y2 (String y3 (String y4 (String "-"
      (String m1 (String m2 (String "-" (String d1 (String d2 EmptyString))))))))) =>
      match digit_of y1, digit_of y2, digit_of y3, digit_of y4,
            digit_of m1, digit_of m2, digit_of d1, digit_of d2 with
      | Some a, Some b, Some c, Some d, Some e, Some f, Some g, Some h =>
          let y := 1000 * a + 100 * b + 10 * c + d in
          let m := 10 * e + f in
          let dd := 10 * g + h in
          if (1 <=? y) && (1 <=? m) && (m <=? 12) && (1 <=? dd)
             && (dd <=? days_in_month y m)
          then ok (datetime_ymd y m dd)
          else invalid
      | _, _, _, _, _, _, _, _ => invalid
      end
  | _ => invalid
  end.

Definition decimal (z : Z) : string := NilZero.string_of_int (Z.to_int z).

Definition quoted (s : string) : string := "'" ++ s ++ "'".

Definition str (v : Json) : string :=
  match v with
  | JNull => "None"
  | JBool true => "True"
  | JBool false => "False"
  | JInt n => decimal n
  | JStr s => s
  | JFloat _ | JArr _ | JObj _ => "..."
  end.

Definition keys (l : list string) : string :=
  "[" ++ String.concat ", " (map quoted l) ++ "]".

(** The runtime whose provider answers every request with [body], on the
    first of June 2024. *)
Definition runtime (body : Exc Json) : Runtime :=
  {| py_float := float;
     fromisoformat := date;
     parse_date := date;
     OHLCVData_init := OHLCVData_validated;
     str_json := str;
     str_keys := keys;
     str_key_error := quoted;
     str_http_exception := fun status_code detail => decimal status_code ++ ": " ++ detail;
     now := datetime_ymd 2024 6 1;
     upstream := fun _ _ => body |}.

(** One entry of a daily time series. *)
Definition entry (day o h l c v : string) : string * Json :=
  (day, JObj [("1. open", JStr o); ("2. high", JStr h); ("3. low", JStr l);
              ("4. close", JStr c); ("5. volume", JStr v)]).

(** A response that carries a daily time series. *)
Definition daily (entries : list (string * Json)) : Exc Json :=
  ok (JObj [("Meta Data", JObj []); ("Time Series (Daily)", JObj entries)]).

(** The payloads and tables of the examples. *)

(** Three valid daily quotes, newest first as the provider lists them. *)
Definition three_days : Exc Json :=
  daily [entry "2024-01-04" "12" "14" "11" "13" "300";
         entry "2024-01-03" "11" "13" "10" "12" "200";
         entry "2024-01-02" "10" "12" "9" "11" "100"].

(** One quote whose high (5) is below its low (10). *)
Definition high_below_low : Exc Json :=
  daily [entry "2024-01-03" "7" "5" "10" "7" "100"].

(** A time series none of whose entries can be read: a field is missing in
    the first, the date of the second is no date, a price of the third is no
    number. *)
Definition unreadable : Exc Json :=
  daily [("2024-01-02", JObj [("1. open", JStr "10"); ("2. high", JStr "12")]);
         entry "yesterday" "10" "12" "9" "11" "100";
         entry "2024-01-04" "10" "n/a" "9" "11" "100"].

(** A series with one valid day, one entry without its volume, and an
    older valid day. *)
Definition one_bad_entry : Exc Json :=
  daily [entry "2024-01-03" "11" "13" "10" "12" "200";
         ("2024-01-04", JObj [("1. open", JStr "12"); ("2. high", JStr "14");
                              ("3. low", JStr "11"); ("4. close", JStr "13")]);
         entry "2024-01-02" "10" "12" "9" "11" "100"].

(** A series whose second entry has [null] for its open price. *)
Definition null_price : Exc Json :=
  daily [entry "2024-01-04" "12" "14" "11" "13" "300";
         ("2024-01-03", JObj [("1. open", JNull); ("2. high", JStr "13");
                              ("3. low", JStr "10"); ("4. close", JStr "12");
                              ("5. volume", JStr "200")]);
         entry "2024-01-02" "10" "12" "9" "11" "100"].

(** A valid day, and a day whose high (5) is below its low (10). *)
Definition one_disordered : Exc Json :=
  daily [entry "2024-01-03" "7" "5" "10" "7" "100";
         entry "2024-01-02" "10" "12" "9" "11" "100"].

(** A series whose second entry has [null] for its close price, and the
    same series without that entry. *)
Definition null_close : Exc Json :=
  daily [entry "2024-01-04" "12" "14" "11" "13" "300";
         ("2024-01-03", JObj [("1. open", JStr "11"); ("2. high", JStr "13");
                              ("3. low", JStr "10"); ("4. close", JNull);
                              ("5. volume", JStr "200")]);
         entry "2024-01-02" "10" "12" "9" "11" "100"].

Definition null_close_left_out : Exc Json :=
  daily [entry "2024-01-04" "12" "14" "11" "13" "300";
         entry "2024-01-02" "10" "12" "9" "11" "100"].

(** The answer of a provider whose quota is used up. *)
Definition rate_limited : Exc Json :=
  ok (JObj [("Note", JStr "Thank you for using Alpha Vantage!")]).

Definition quote (y m d : Z) (o h l c v : PrimFloat.float) : OHLCVData :=
  {| timestamp := datetime_ymd y m d;
     open := o; high := h; low := l; close := c; volume := v |}.

Definition quotes_of_three_days : list OHLCVData :=
  [quote 2024 1 2 10 12 9 11 100;
   quote 2024 1 3 11 13 10 12 200;
   quote 2024 1 4 12 14 11 13 300].

(** A table that holds the three days for AAPL. *)
Definition cached : World :=
  {| table := map (to_record "AAPL") quotes_of_three_days; requests := [] |}.

(** A table in which one key stands twice, as nothing in the table itself
    forbids. *)
Definition doubled : World :=
  {| table := [to_record "AAPL" (quote 2024 1 3 11 13 10 12 200);
               to_record "AAPL" (quote 2024 1 3 11 13 10 12 201)];
     requests := [] |}.

(** A world with nothing stored and no request sent. *)
Definition empty : World := {| table := []; requests := [] |}.

End Sample.

(** * Properties *)

(** Unfolds a call of [get_ohlcv_data] down to its steps. *)
Ltac run_get :=
  unfold get_ohlcv_data, bind, lift, ret, raise, _get_cached_data, save_ohlcv_data.


(** ** Sorting by key *)

Section ByKeyFacts.
Context {A : Type} (key : A -> Z).

Lemma insert_by_perm (x : A) (l : list A) :
  Permutation (x :: l) (insert_by key x l).
Proof.
  induction l as [|y l IH]; simpl.
  - apply Permutation_refl.
  - destruct (key x <=? key y).
    + apply Permutation_refl.
    + eapply perm_trans; [apply perm_swap|]. now apply perm_skip.
Qed.

Lemma sorted_by_perm (l : list A) : Permutation l (sorted_by key l).
Proof.
  induction l as [|x l IH]; simpl.
  - constructor.
  - eapply perm_trans; [|apply insert_by_perm]. now apply perm_skip.
Qed.

Lemma sorted_by_In (x : A) (l : list A) : In x (sorted_by key l) <-> In x l.
Proof.
  split; apply Permutation_in;
    [apply Permutation_sym|]; apply sorted_by_perm.
Qed.

Lemma insert_by_ascending (x : A) (l : list A) :
  ascending key l -> ascending key (insert_by key x l).
Proof.
  unfold ascending. induction l as [|y l IH]; simpl; intros Hs.
  - constructor; constructor.
  - inversion Hs as [|? ? Hl Hy]; subst.
    destruct (Z.leb_spec (key x) (key y)) as [Hle|Hgt].
    + constructor; [assumption|]. constructor; [assumption|].
      eapply Forall_impl; [|exact Hy]. simpl. intros; lia.
    + constructor; [now apply IH|].
      eapply Permutation_Forall; [apply insert_by_perm|].
      constructor; [lia | assumption].
Qed.

Lemma sorted_by_ascending (l : list A) : ascending key (sorted_by key l).
Proof.
  induction l as [|x l IH]; simpl.
  - constructor.
  - now apply insert_by_ascending.
Qed.

(** Sorting leaves an ascending list as it is. *)
Lemma sorted_by_fixed (l : list A) : ascending key l -> sorted_by key l = l.
Proof.
  unfold ascending. induction l as [|x l IH]; simpl; intros Hs; [reflexivity|].
  inversion Hs as [|? ? Hl Hx]; subst. rewrite (IH Hl).
  destruct l as [|y l]; [reflexivity|]. simpl.
  inversion Hx as [|? ? Hxy _]; subst.
  destruct (Z.leb_spec (key x) (key y)); [reflexivity | lia].
Qed.

Lemma filter_ascending (f : A -> bool) (l : list A) :
  ascending key l -> ascending key (filter f l).
Proof.
  unfold ascending. induction l as [|x l IH]; simpl; intros Hs; [constructor|].
  inversion Hs as [|? ? Hl Hx]; subst.
  destruct (f x); [|now apply IH].
  constructor; [now apply IH|].
  rewrite Forall_forall in *. intros y Hy. apply Hx.
  apply filter_In in Hy. tauto.
Qed.

Lemma in_range_spec (lo hi : Z) (x : A) :
  in_range key lo hi x = true <-> lo <= key x <= hi.
Proof. unfold in_range. rewrite andb_true_iff, !Z.leb_le. tauto. Qed.

(** Nothing lies in an inverted range. *)
Lemma in_range_inverted (lo hi : Z) (x : A) :
  hi < lo -> in_range key lo hi x = false.
Proof.
  intros H. destruct (in_range key lo hi x) eqn:E; [|reflexivity].
  apply in_range_spec in E. lia.
Qed.

Lemma filter_all (f : A -> bool) (l : list A) :
  Forall (fun x => f x = true) l -> filter f l = l.
Proof.
  induction 1 as [|x l Hx _ IH]; simpl; [reflexivity|]. now rewrite Hx, IH.
Qed.

Lemma filter_none (f : A -> bool) (l : list A) :
  Forall (fun x => f x = false) l -> filter f l = [].
Proof.
  induction 1 as [|x l Hx _ IH]; simpl; [reflexivity|]. now rewrite Hx.
Qed.
End ByKeyFacts.

Lemma map_ascending {A B : Type} (kA : A -> Z) (kB : B -> Z) (f : A -> B) (l : list A) :
  (forall x, kB (f x) = kA x) -> ascending kA l -> ascending kB (map f l).
Proof.
  unfold ascending. intros Hk. induction 1 as [|x l Hl IH Hx]; simpl; constructor.
  - assumption.
  - rewrite Forall_map. eapply Forall_impl; [|exact Hx].
    simpl. intros y Hy. now rewrite !Hk.
Qed.

(** ** The provider client *)

Section ProviderFacts.
Variable rt : Runtime.

Lemma parse_loop_app (items : list (string * Json)) (acc : list OHLCVData) :
  parse_loop rt items acc =
  let? l := parse_loop rt items [] in ok (acc ++ l)%list.
Proof.
  revert acc. induction items as [|[k v] rest IH]; intros acc; simpl.
  - now rewrite app_nil_r.
  - destruct (parse_entry rt k v) as [o|[key|msg|sc d|msg]]; try apply IH; try reflexivity.
    rewrite (IH (acc ++ [o])%list), (IH [o]).
    destruct (parse_loop rt rest []); simpl; [|reflexivity].
    now rewrite <- app_assoc.
Qed.

Lemma parse_loop_skip (pre post : list (string * Json)) (k : string) (v : Json)
  (acc : list OHLCVData) :
  caught rt k v ->
  parse_loop rt (pre ++ (k, v) :: post) acc = parse_loop rt (pre ++ post) acc.
Proof.
  intros Hbad. revert acc. induction pre as [|[k' v'] pre IH]; intros acc; simpl.
  - destruct Hbad as [[key ->]|[msg ->]]; reflexivity.
  - destruct (parse_entry rt k' v') as [o|[key|msg|sc d|msg]]; try apply IH; reflexivity.
Qed.

(** A successful loop keeps, in the order of the payload, the object of
    each entry that could be built. *)
Lemma parse_loop_In (items : list (string * Json)) (acc l : list OHLCVData) (o : OHLCVData) :
  parse_loop rt items acc = ok l ->
  (In o l <-> In o acc \/ exists k v, In (k, v) items /\ parse_entry rt k v = ok o).
Proof.
  revert acc. induction items as [|[k v] rest IH]; intros acc; simpl.
  - intros [= <-]. split; [tauto|]. intros [H|(k & v & [] & _)]. exact H.
  - destruct (parse_entry rt k v) as [o'|[key|msg|sc d|msg]] eqn:E; intros H;
      try discriminate; apply IH in H; rewrite H; clear H.
    + rewrite in_app_iff. simpl. split.
      * intros [[Hacc|[<-|[]]]|(k1 & v1 & Hin & Hp)]; eauto 8.
      * intros [Hacc|(k1 & v1 & [[= <- <-]|Hin] & Hp)]; eauto 8.
        rewrite E in Hp. injection Hp as <-. tauto.
    + split; intros [Hacc|(k1 & v1 & Hin & Hp)]; eauto 8.
      destruct Hin as [[= <- <-]|Hin]; [congruence | eauto 8].
    + split; intros [Hacc|(k1 & v1 & Hin & Hp)]; eauto 8.
      destruct Hin as [[= <- <-]|Hin]; [congruence | eauto 8].
Qed.

Lemma parse_time_series_ascending (time_series : Json) (l : list OHLCVData) :
  _parse_time_series rt time_series = ok l -> ascending timestamp l.
Proof.
  destruct time_series; simpl; try discriminate.
  destruct (parse_loop rt items []); simpl; [|discriminate].
  intros [= <-]. apply sorted_by_ascending.
Qed.

(** [fetch_daily] sends exactly one request and leaves the table alone,
    whatever its outcome. *)
Lemma fetch_daily_world (symbol outputsize : string) (w : World) :
  snd (fetch_daily rt symbol outputsize w) = sent symbol outputsize w.
Proof.
  unfold fetch_daily, bind, client_get. simpl.
  destruct (upstream rt symbol outputsize) as [data|e]; [|reflexivity].
  destruct data; try reflexivity.
  destruct (dict_get "Error Message" items); [reflexivity|].
  destruct (dict_contains "Note" items); [reflexivity|].
  destruct (dict_get "Information" items); [reflexivity|].
  destruct (negb _); reflexivity.
Qed.

(** What a successful [fetch_daily] went through. *)
Lemma fetch_daily_ok (symbol outputsize : string) (w w' : World) (l : list OHLCVData) :
  fetch_daily rt symbol outputsize w = (ok l, w') ->
  exists items time_series,
    upstream rt symbol outputsize = ok (JObj items) /\
    dict_get "Error Message" items = None /\
    dict_contains "Note" items = false /\
    dict_get "Information" items = None /\
    dict_get "Time Series (Daily)" items = Some time_series /\
    truthy time_series = true /\
    _parse_time_series rt time_series = ok l /\
    w' = sent symbol outputsize w.
Proof.
  intros H. pose proof (fetch_daily_world symbol outputsize w) as Hw.
  rewrite H in Hw. simpl in Hw. revert H.
  unfold fetch_daily, bind, client_get, raise, lift.
  destruct (upstream rt symbol outputsize) as [data|e]; [|discriminate].
  destruct data; try discriminate.
  destruct (dict_get "Error Message" items) eqn:Eerr; [discriminate|].
  destruct (dict_contains "Note" items) eqn:Enote; [discriminate|].
  destruct (dict_get "Information" items) eqn:Einfo; [discriminate|].
  destruct (dict_get "Time Series (Daily)" items) as [ts|] eqn:Ets;
    [|simpl; discriminate].
  destruct (truthy ts) eqn:Et; simpl; [|discriminate].
  intros [= Hl _]. exists items, ts. repeat split; assumption.
Qed.

Lemma fetch_daily_ascending (symbol outputsize : string) (w w' : World) (l : list OHLCVData) :
  fetch_daily rt symbol outputsize w = (ok l, w') -> ascending timestamp l.
Proof.
  intros H. apply fetch_daily_ok in H.
  destruct H as (items & ts & _ & _ & _ & _ & _ & _ & Hp & _).
  eapply parse_time_series_ascending; eassumption.
Qed.

(** A missing field raises [KeyError] once the fields before it were read. *)
Lemma missing_volume_malformed (timestamp_str : string) (fields : list (string * Json))
  (ts : datetime) (vo vh vl vc : Json) (o h l c : float) :
  fromisoformat rt timestamp_str = ok ts ->
  dict_get "1. open" fields = Some vo -> py_float rt vo = ok o ->
  dict_get "2. high" fields = Some vh -> py_float rt vh = ok h ->
  dict_get "3. low" fields = Some vl -> py_float rt vl = ok l ->
  dict_get "4. close" fields = Some vc -> py_float rt vc = ok c ->
  dict_get "5. volume" fields = None ->
  caught rt timestamp_str (JObj fields).
Proof.
  intros Hts Ho Ho' Hh Hh' Hl Hl' Hc Hc' Hv. left. exists "5. volume".
  unfold parse_entry, getitem. rewrite Hts. simpl.
  rewrite Ho; simpl; rewrite Ho'; simpl. rewrite Hh; simpl; rewrite Hh'; simpl.
  rewrite Hl; simpl; rewrite Hl'; simpl. rewrite Hc; simpl; rewrite Hc'; simpl.
  now rewrite Hv.
Qed.

(** A timestamp that [fromisoformat] cannot read raises [ValueError]. *)
Lemma unreadable_timestamp_malformed (timestamp_str : string) (values : Json) (msg : string) :
  fromisoformat rt timestamp_str = raised (ValueError msg) ->
  caught rt timestamp_str values.
Proof.
  intros H. right. exists msg. unfold parse_entry. now rewrite H.
Qed.

(** A first field that is absent, or whose text [float] cannot read. *)
Lemma unreadable_open_malformed (timestamp_str : string) (fields : list (string * Json))
  (ts : datetime) :
  fromisoformat rt timestamp_str = ok ts ->
  (dict_get "1. open" fields = None \/
   exists v msg, dict_get "1. open" fields = Some v /\
                 py_float rt v = raised (ValueError msg)) ->
  caught rt timestamp_str (JObj fields).
Proof.
  intros Hts [Hnone|(v & msg & Hv & Hf)]; unfold caught, parse_entry, getitem;
    rewrite Hts; simpl.
  - left. exists "1. open". now rewrite Hnone.
  - right. exists msg. rewrite Hv. simpl. now rewrite Hf.
Qed.
End ProviderFacts.

(** ** The cache table *)

Lemma select_by_key_In (s : string) (ts : datetime) (rows : list OHLCVRecord)
  (r : OHLCVRecord) :
  In r (select_by_key s ts rows) <->
  In r rows /\ rec_symbol r = s /\ rec_timestamp r = ts.
Proof.
  unfold select_by_key. rewrite filter_In, andb_true_iff, String.eqb_eq, Z.eqb_eq.
  tauto.
Qed.

Lemma select_by_key_app (s : string) (ts : datetime) (rows more : list OHLCVRecord) :
  select_by_key s ts (rows ++ more) = (select_by_key s ts rows ++ select_by_key s ts more)%list.
Proof. apply filter_app. Qed.

Lemma select_by_key_stored (s : string) (ts : datetime) (rows : list OHLCVRecord) :
  select_by_key s ts rows <> [] <-> stored s ts rows.
Proof.
  unfold stored. split.
  - destruct (select_by_key s ts rows) as [|r l] eqn:E; [congruence|]. intros _.
    exists r. apply select_by_key_In. rewrite E. now left.
  - intros (r & Hr) E. apply select_by_key_In in Hr. rewrite E in Hr. exact Hr.
Qed.

(** With unique keys a lookup by key finds no row or one row, and
    [scalar_one_or_none] does not raise. *)
Lemma select_by_key_unique (s : string) (ts : datetime) (rows : list OHLCVRecord) :
  unique_keys rows ->
  select_by_key s ts rows = [] \/ exists r, select_by_key s ts rows = [r].
Proof.
  unfold unique_keys. induction rows as [|r rows IH]; simpl; intros Hu; [now left|].
  inversion Hu as [|? ? Hnotin Hu']; subst.
  destruct (String.eqb (rec_symbol r) s && (rec_timestamp r =? ts)) eqn:E.
  - right. exists r. f_equal.
    destruct (select_by_key s ts rows) as [|r' l] eqn:Es; [reflexivity|].
    exfalso. apply Hnotin.
    assert (Hin : In r' (select_by_key s ts rows)) by (rewrite Es; now left).
    apply select_by_key_In in Hin. destruct Hin as (Hin & Hs & Ht).
    apply andb_true_iff in E. destruct E as [E1 E2].
    apply String.eqb_eq in E1. apply Z.eqb_eq in E2.
    apply in_map_iff. exists r'. split; [|assumption].
    unfold rec_key. congruence.
  - apply IH. assumption.
Qed.

Lemma unique_keys_snoc (rows : list OHLCVRecord) (r : OHLCVRecord) :
  unique_keys rows ->
  select_by_key (rec_symbol r) (rec_timestamp r) rows = [] ->
  unique_keys (rows ++ [r]).
Proof.
  unfold unique_keys. intros Hu Hsel. rewrite map_app. simpl.
  apply NoDup_rev in Hu. rewrite <- (rev_involutive (map rec_key rows ++ [rec_key r])).
  apply NoDup_rev. rewrite rev_app_distr. simpl. constructor; [|assumption].
  rewrite <- in_rev. intros Hin. apply in_map_iff in Hin.
  destruct Hin as (r' & Hk & Hin).
  assert (H : In r' (select_by_key (rec_symbol r) (rec_timestamp r) rows)).
  { apply select_by_key_In. unfold rec_key in Hk. injection Hk as Hs Ht. tauto. }
  rewrite Hsel in H. exact H.
Qed.

(** What [save_ohlcv_data] does to a table with unique keys: it never
    raises; it appends rows, each built from a quote of [data] whose key the
    table did not hold; keys stay unique; and afterwards every quote of
    [data] has its row. *)
Lemma save_loop_spec (symbol : string) (data : list OHLCVData) (rows : list OHLCVRecord) :
  unique_keys rows ->
  exists added,
    save_loop symbol data rows = ok (rows ++ added)%list /\
    unique_keys (rows ++ added) /\
    Forall (fun r => exists o, In o data /\ r = to_record symbol o /\
                               ~ stored symbol (timestamp o) rows) added /\
    forall o, In o data -> stored symbol (timestamp o) (rows ++ added).
Proof.
  revert rows. induction data as [|o data IH]; intros rows Hu; simpl.
  - exists []. rewrite app_nil_r. repeat split; try assumption; try constructor.
    intros o [].
  - destruct (select_by_key_unique symbol (timestamp o) rows Hu) as [Hsel|[r Hsel]];
      rewrite Hsel; simpl.
    + assert (Hu' : unique_keys (rows ++ [to_record symbol o])).
      { apply unique_keys_snoc; assumption. }
      destruct (IH _ Hu') as (added & Hsave & Hu'' & Hadded & Hall).
      exists (to_record symbol o :: added).
      replace (rows ++ to_record symbol o :: added)%list
        with ((rows ++ [to_record symbol o]) ++ added)%list
        by (rewrite <- app_assoc; reflexivity).
      repeat split; try assumption.
      * constructor.
        -- exists o. repeat split; [now left|].
           intros Hst. apply select_by_key_stored in Hst. congruence.
        -- eapply Forall_impl; [|exact Hadded]. simpl.
           intros r (o' & Hin & -> & Hns). exists o'. repeat split; [now right|].
           intros (r' & Hr' & Hk). apply Hns. exists r'. split; [|assumption].
           apply in_or_app. now left.
      * intros o' [<-|Hin]; [|now apply Hall].
        exists (to_record symbol o). repeat split.
        apply in_or_app. left. apply in_or_app. right. now left.
    + destruct (IH _ Hu) as (added & Hsave & Hu' & Hadded & Hall).
      exists added. repeat split; try assumption.
      * eapply Forall_impl; [|exact Hadded]. simpl.
        intros r' (o' & Hin & Heq & Hns). exists o'. repeat split; auto.
      * intros o' [<-|Hin]; [|now apply Hall].
        assert (Hst : stored symbol (timestamp o) rows).
        { apply select_by_key_stored. rewrite Hsel. discriminate. }
        destruct Hst as (r' & Hr' & Hk). exists r'. split; [|assumption].
        apply in_or_app. now left.
Qed.

(** Saving quotes that all have their row changes nothing. *)
Lemma save_loop_noop (symbol : string) (data : list OHLCVData) (rows : list OHLCVRecord) :
  unique_keys rows ->
  (forall o, In o data -> stored symbol (timestamp o) rows) ->
  save_loop symbol data rows = ok rows.
Proof.
  intros Hu. induction data as [|o data IH]; intros Hall; simpl; [reflexivity|].
  destruct (select_by_key_unique symbol (timestamp o) rows Hu) as [Hsel|[r Hsel]];
    rewrite Hsel; simpl.
  - exfalso. assert (H : stored symbol (timestamp o) rows) by (apply Hall; now left).
    apply select_by_key_stored in H. congruence.
  - apply IH. intros o' Hin. apply Hall. now right.
Qed.

(** The rows a range query returns. *)
Lemma range_query_In (symbol : string) (lo hi : datetime) (rows : list OHLCVRecord)
  (r : OHLCVRecord) :
  In r (range_query symbol lo hi rows) <->
  In r rows /\ rec_symbol r = symbol /\ lo <= rec_timestamp r <= hi.
Proof.
  unfold range_query. rewrite sorted_by_In, filter_In, andb_true_iff, String.eqb_eq.
  rewrite in_range_spec. tauto.
Qed.

Lemma range_query_ascending (symbol : string) (lo hi : datetime) (rows : list OHLCVRecord) :
  ascending rec_timestamp (range_query symbol lo hi rows).
Proof. apply sorted_by_ascending. Qed.

Lemma range_query_inverted (symbol : string) (lo hi : datetime) (rows : list OHLCVRecord) :
  hi < lo -> range_query symbol lo hi rows = [].
Proof.
  intros H. destruct (range_query symbol lo hi rows) as [|r l] eqn:E; [reflexivity|].
  assert (Hin : In r (range_query symbol lo hi rows)) by (rewrite E; now left).
  apply range_query_In in Hin. lia.
Qed.

(** ** The two paths of [get_ohlcv_data] *)

Lemma records_frame_timestamps (records : list OHLCVRecord) :
  map row_timestamp (_records_to_dataframe records) = map rec_timestamp records.
Proof. unfold _records_to_dataframe. rewrite map_map. reflexivity. Qed.

Lemma records_frame_in_range (lo hi : datetime) (records : list OHLCVRecord) :
  Forall (fun r => lo <= rec_timestamp r <= hi) records ->
  filter_by_date_range lo hi (_records_to_dataframe records) = _records_to_dataframe records.
Proof.
  intros H. apply filter_all. unfold _records_to_dataframe. rewrite Forall_map.
  eapply Forall_impl; [|exact H]. intros r Hr. now apply in_range_spec.
Qed.


Section WarehouseFacts.
Variable rt : Runtime.
Variables (symbol : string) (start_date end_date : option string).
Variables (start_dt end_dt : datetime) (w : World).
Hypothesis Hstart : date_or rt start_date default_start = ok start_dt.
Hypothesis Hend : date_or rt end_date (now rt) = ok end_dt.

Lemma get_hit (cached : list OHLCVRecord) :
  range_query symbol start_dt end_dt (table w) = cached ->
  cached <> [] ->
  get_ohlcv_data rt symbol start_date end_date w =
  (ok (_records_to_dataframe cached), w).
Proof.
  intros Hq Hne. run_get. rewrite Hstart, Hend, Hq.
  destruct cached as [|r rs]; [congruence|].
  assert (Hin : Forall (fun r => start_dt <= rec_timestamp r <= end_dt) (r :: rs)).
  { rewrite <- Hq. apply Forall_forall. intros x Hx. apply range_query_In in Hx. tauto. }
  pose proof (records_frame_in_range _ _ _ Hin) as Hf.
  simpl in *. rewrite Hf. reflexivity.
Qed.

Section Miss.
Hypothesis Hmiss : range_query symbol start_dt end_dt (table w) = [].

Lemma get_miss_world :
  requests (snd (get_ohlcv_data rt symbol start_date end_date w)) =
  (requests w ++ [(symbol, "compact")])%list.
Proof.
  run_get. rewrite Hstart, Hend, Hmiss.
  pose proof (fetch_daily_world rt symbol "compact" w) as Hw.
  destruct (fetch_daily rt symbol "compact" w) as [[data|e] w1]; simpl in *; subst w1;
    [|reflexivity].
  destruct data as [|o data]; [reflexivity|].
  destruct (save_loop _ _ _); reflexivity.
Qed.

Lemma get_miss_raised (e : Exn) (w1 : World) :
  fetch_daily rt symbol "compact" w = (raised e, w1) ->
  get_ohlcv_data rt symbol start_date end_date w = (raised e, w1).
Proof. intros Hf. run_get. rewrite Hstart, Hend, Hmiss, Hf. reflexivity. Qed.

Lemma get_miss_empty (w1 : World) :
  fetch_daily rt symbol "compact" w = (ok [], w1) ->
  get_ohlcv_data rt symbol start_date end_date w =
  (raised (ValueError ("No data returned from Alpha Vantage for " ++ symbol)), w1).
Proof. intros Hf. run_get. rewrite Hstart, Hend, Hmiss, Hf. reflexivity. Qed.

Lemma get_miss_saved (data : list OHLCVData) (w1 : World) (rows : list OHLCVRecord) :
  fetch_daily rt symbol "compact" w = (ok data, w1) ->
  data <> [] ->
  save_loop symbol data (table w1) = ok rows ->
  get_ohlcv_data rt symbol start_date end_date w =
  (ok (filter_by_date_range start_dt end_dt (_ohlcv_to_dataframe data)),
   {| table := rows; requests := requests w1 |}).
Proof.
  intros Hf Hne Hs. run_get. rewrite Hstart, Hend, Hmiss, Hf.
  destruct data as [|o data]; [congruence|]. rewrite Hs. reflexivity.
Qed.

Lemma get_miss_save_raised (data : list OHLCVData) (w1 : World) (e : Exn) :
  fetch_daily rt symbol "compact" w = (ok data, w1) ->
  data <> [] ->
  save_loop symbol data (table w1) = raised e ->
  get_ohlcv_data rt symbol start_date end_date w = (raised e, w1).
Proof.
  intros Hf Hne Hs. run_get. rewrite Hstart, Hend, Hmiss, Hf.
  destruct data as [|o data]; [congruence|]. rewrite Hs. reflexivity.
Qed.
End Miss.
End WarehouseFacts.

(** ** More on saving and fetching *)

(** Whatever the table, a save that returns has appended rows built from
    [data] under the symbol it was given. *)
Lemma save_loop_extends (symbol : string) (data : list OHLCVData)
  (rows rows' : list OHLCVRecord) :
  save_loop symbol data rows = ok rows' ->
  exists added,
    rows' = (rows ++ added)%list /\
    Forall (fun r => exists o, In o data /\ r = to_record symbol o) added.
Proof.
  revert rows. induction data as [|o data IH]; intros rows; simpl.
  - intros [= <-]. exists []. now rewrite app_nil_r.
  - destruct (scalar_one_or_none _) as [[r|]|e]; simpl; [| |discriminate]; intros H;
      apply IH in H; destruct H as (added & -> & Hadded).
    + exists added. split; [reflexivity|].
      eapply Forall_impl; [|exact Hadded]. simpl. intros r' (o' & Hin & ->). eauto.
    + exists (to_record symbol o :: added). rewrite <- app_assoc. split; [reflexivity|].
      constructor; [eauto|].
      eapply Forall_impl; [|exact Hadded]. simpl. intros r' (o' & Hin & ->). eauto.
Qed.

(** The only exception of a save is the one of [scalar_one_or_none]. *)
Lemma save_loop_raised (symbol : string) (data : list OHLCVData)
  (rows : list OHLCVRecord) (e : Exn) :
  save_loop symbol data rows = raised e -> e = OtherError "MultipleResultsFound".
Proof.
  revert rows. induction data as [|o data IH]; intros rows; simpl; [discriminate|].
  destruct (select_by_key symbol (timestamp o) rows) as [|r [|r' l]]; simpl.
  - apply IH.
  - apply IH.
  - now intros [= <-].
Qed.

Section FetchFacts.
Variable rt : Runtime.

(** The loop lets through no [KeyError] and no [ValueError]. *)
Lemma parse_loop_raised (items : list (string * Json)) (acc : list OHLCVData) (e : Exn) :
  parse_loop rt items acc = raised e ->
  (forall key, e <> KeyError key) /\ (forall msg, e <> ValueError msg).
Proof.
  revert acc. induction items as [|[k v] rest IH]; intros acc; simpl; [discriminate|].
  destruct (parse_entry rt k v) as [o|[key|msg|sc d|msg]]; try apply IH;
    intros [= <-]; split; discriminate.
Qed.

Lemma parse_time_series_raised (time_series : Json) (e : Exn) :
  _parse_time_series rt time_series = raised e -> forall msg, e <> ValueError msg.
Proof.
  destruct time_series; simpl; try (intros [= <-]; discriminate).
  destruct (parse_loop rt items []) eqn:E; simpl; [discriminate|].
  intros [= <-]. apply parse_loop_raised in E. tauto.
Qed.

(** The outcome of a fetch depends on the answer of the provider only. *)
Lemma fetch_daily_any_world (symbol outputsize : string) (w w' : World) :
  fst (fetch_daily rt symbol outputsize w) = fst (fetch_daily rt symbol outputsize w').
Proof.
  unfold fetch_daily, bind, client_get, raise, lift. simpl.
  destruct (upstream rt symbol outputsize) as [data|e]; [|reflexivity].
  destruct data; try reflexivity.
  destruct (dict_get "Error Message" items); [reflexivity|].
  destruct (dict_contains "Note" items); [reflexivity|].
  destruct (dict_get "Information" items); [reflexivity|].
  destruct (negb _); reflexivity.
Qed.

Lemma fetch_daily_again (symbol outputsize : string) (w w1 w' : World) (out : Exc (list OHLCVData)) :
  fetch_daily rt symbol outputsize w = (out, w1) ->
  fetch_daily rt symbol outputsize w' = (out, sent symbol outputsize w').
Proof.
  intros H.
  pose proof (fetch_daily_any_world symbol outputsize w w') as Hfst.
  pose proof (fetch_daily_world rt symbol outputsize w') as Hsnd.
  rewrite H in Hfst. simpl in Hfst.
  destruct (fetch_daily rt symbol outputsize w') as [out' w2]. simpl in *. congruence.
Qed.

(** A response with a ["Note"] and no ["Error Message"] is answered with
    the rate-limit error. *)
Lemma fetch_daily_note (symbol outputsize : string) (w : World)
  (items : list (string * Json)) :
  upstream rt symbol outputsize = ok (JObj items) ->
  dict_get "Error Message" items = None ->
  dict_contains "Note" items = true ->
  fetch_daily rt symbol outputsize w =
  (raised (ValueError rate_limit_message), sent symbol outputsize w).
Proof.
  intros Hup Herr Hnote. unfold fetch_daily, bind, client_get, raise.
  rewrite Hup, Herr, Hnote. reflexivity.
Qed.

(** And no other response is. *)
Lemma fetch_daily_rate_limited (symbol outputsize : string) (w : World) (data : Json) :
  upstream rt symbol outputsize = ok data ->
  fst (fetch_daily rt symbol outputsize w) = raised (ValueError rate_limit_message) ->
  exists items,
    data = JObj items /\
    dict_get "Error Message" items = None /\
    dict_contains "Note" items = true.
Proof.
  intros Hup. unfold fetch_daily, bind, client_get, raise, lift. rewrite Hup.
  destruct data; try discriminate.
  destruct (dict_get "Error Message" items) eqn:Eerr; [discriminate|].
  destruct (dict_contains "Note" items) eqn:Enote; [eauto|].
  destruct (dict_get "Information" items); [discriminate|].
  destruct (negb _); [discriminate|]. simpl.
  destruct (_parse_time_series rt _) as [l|e] eqn:E; [discriminate|].
  intros [= ->]. apply parse_time_series_raised with (msg := rate_limit_message) in E.
  congruence.
Qed.
End FetchFacts.

(** * The claims of the specification *)

(** ** Cache hit *)

Lemma records_frame_holds (records : list OHLCVRecord) :
  Forall2 row_holds_record records (_records_to_dataframe records).
Proof.
  induction records as [|r records IH]; simpl; constructor; [|exact IH].
  repeat split.
Qed.


(** C1.  When the range query of the store returns at least one record,
    [get_ohlcv_data] returns exactly those records: its frame has one line
    for each of them, in their order, with the timestamp and the five
    numbers of the record.  They are the rows of the table for that symbol
    with [start <= timestamp <= end], ascending by timestamp; the world is
    left as it was, so the provider is not called. *)
Theorem cache_hit_serves_cached_rows (rt : Runtime) (symbol : string)
  (start_date end_date : option string) (start_dt end_dt : datetime) (w : World) :
  date_or rt start_date default_start = ok start_dt ->
  date_or rt end_date (now rt) = ok end_dt ->
  range_query symbol start_dt end_dt (table w) <> [] ->
  let cached := range_query symbol start_dt end_dt (table w) in
  let out := get_ohlcv_data rt symbol start_date end_date w in
  exists df,
    out = (ok df, w) /\
    Forall2 row_holds_record cached df /\
    requests (snd out) = requests w /\
    (forall r, In r cached <->
               In r (table w) /\ rec_symbol r = symbol /\
               start_dt <= rec_timestamp r <= end_dt) /\
    Forall (fun row => start_dt <= row_timestamp row <= end_dt) df /\
    ascending row_timestamp df.
Proof.
  intros Hs He Hne cached out.
  assert (Hout : out = (ok (_records_to_dataframe cached), w)).
  { eapply get_hit; eauto. }
  exists (_records_to_dataframe cached).
  split; [exact Hout|]. split; [apply records_frame_holds|].
  split; [now rewrite Hout|].
  split; [intros r; apply range_query_In|]. split.
  - unfold _records_to_dataframe. rewrite Forall_map. apply Forall_forall.
    intros r Hr. apply range_query_In in Hr. simpl. tauto.
  - apply map_ascending with (kA := rec_timestamp); [reflexivity|].
    apply range_query_ascending.
Qed.

(** The third scenario of the specification: the three days are stored,
    the third of January is asked for alone; the frame is that one day,
    with its numbers, and nothing else has happened. *)
Lemma cache_hit_serves_cached_rows_witness :
  exists df,
    get_ohlcv_data (Sample.runtime Sample.three_days) "AAPL"
      (Some "2024-01-03") (Some "2024-01-03") Sample.cached = (ok df, Sample.cached) /\
    Forall2 row_holds_record
      [{| rec_symbol := "AAPL"; rec_timestamp := datetime_ymd 2024 1 3;
          rec_open := 11; rec_high := 13; rec_low := 10; rec_close := 12;
          rec_volume := 200 |}] df /\
    df = [{| row_timestamp := datetime_ymd 2024 1 3;
             row_open := 11; row_high := 13; row_low := 10; row_close := 12;
             row_volume := 200 |}].
Proof.
  destruct (cache_hit_serves_cached_rows (Sample.runtime Sample.three_days)
              "AAPL" (Some "2024-01-03") (Some "2024-01-03")
              (datetime_ymd 2024 1 3) (datetime_ymd 2024 1 3) Sample.cached
              eq_refl eq_refl)
    as (df & Hout & Hrows & _).
  - vm_compute. discriminate.
  - exists df. split; [exact Hout|]. split; [exact Hrows|].
    vm_compute in Hout. injection Hout as <-. reflexivity.
Defined.

(** ** Cache miss *)


(** What a miss does once the provider has answered with a non-empty list,
    on a table with unique keys. *)
Lemma miss_saves_and_filters (rt : Runtime) (symbol : string)
  (start_date end_date : option string) (start_dt end_dt : datetime) (w w1 : World)
  (fetched : list OHLCVData) :
  date_or rt start_date default_start = ok start_dt ->
  date_or rt end_date (now rt) = ok end_dt ->
  range_query symbol start_dt end_dt (table w) = [] ->
  unique_keys (table w) ->
  fetch_daily rt symbol "compact" w = (ok fetched, w1) ->
  fetched <> [] ->
  exists added,
    get_ohlcv_data rt symbol start_date end_date w =
    (ok (filter_by_date_range start_dt end_dt (_ohlcv_to_dataframe fetched)),
     {| table := (table w ++ added)%list;
        requests := (requests w ++ [(symbol, "compact")])%list |}) /\
    save_loop symbol fetched (table w) = ok (table w ++ added)%list /\
    Forall (fun r => exists o, In o fetched /\ r = to_record symbol o /\
                               ~ stored symbol (timestamp o) (table w)) added /\
    unique_keys (table w ++ added) /\
    (forall o, In o fetched -> stored symbol (timestamp o) (table w ++ added)).
Proof.
  intros Hs He Hmiss Hu Hf Hne.
  pose proof (fetch_daily_world rt symbol "compact" w) as Hw.
  rewrite Hf in Hw. simpl in Hw. subst w1.
  destruct (save_loop_spec symbol fetched (table w) Hu)
    as (added & Hsave & Hu' & Hadded & Hall).
  exists added. repeat split; try assumption.
  erewrite get_miss_saved; eauto. reflexivity.
Qed.



(** The scenario of the specification: nothing stored, three valid days
    upstream; the call returns the three days, oldest first, and the table
    holds exactly their three rows. *)
Example three_days_scenario :
  get_ohlcv_data (Sample.runtime Sample.three_days) "AAPL"
    (Some "2024-01-01") (Some "2024-01-05") Sample.empty =
  (ok (_ohlcv_to_dataframe Sample.quotes_of_three_days),
   {| table := map (to_record "AAPL") Sample.quotes_of_three_days;
      requests := [("AAPL", "compact")] |}).
Proof. vm_compute. reflexivity. Qed.

(** C5.  On a miss, when the provider client returns an empty list (a time
    series every entry of which was dropped), [get_ohlcv_data] raises
    [ValueError("No data returned from Alpha Vantage for <symbol>")]: the
    call is no success, and the table is not touched. *)
Theorem empty_fetch_raises_no_data (rt : Runtime) (symbol : string)
  (start_date end_date : option string) (start_dt end_dt : datetime) (w w1 : World) :
  date_or rt start_date default_start = ok start_dt ->
  date_or rt end_date (now rt) = ok end_dt ->
  range_query symbol start_dt end_dt (table w) = [] ->
  fetch_daily rt symbol "compact" w = (ok [], w1) ->
  get_ohlcv_data rt symbol start_date end_date w =
  (raised (ValueError ("No data returned from Alpha Vantage for " ++ symbol)), w1) /\
  (forall df, fst (get_ohlcv_data rt symbol start_date end_date w) <> ok df) /\
  table w1 = table w.
Proof.
  intros Hs He Hmiss Hf.
  assert (Hout : get_ohlcv_data rt symbol start_date end_date w =
                 (raised (ValueError ("No data returned from Alpha Vantage for "
                                      ++ symbol)), w1)).
  { eapply get_miss_empty; eauto. }
  split; [exact Hout|]. split.
  - intros df. rewrite Hout. discriminate.
  - pose proof (fetch_daily_world rt symbol "compact" w) as Hw.
    rewrite Hf in Hw. simpl in Hw. now subst w1.
Qed.

Lemma empty_fetch_raises_no_data_witness :
  get_ohlcv_data (Sample.runtime Sample.unreadable) "AAPL" None None Sample.empty =
  (raised (ValueError "No data returned from Alpha Vantage for AAPL"),
   {| table := []; requests := [("AAPL", "compact")] |}).
Proof.
  refine (proj1 (empty_fetch_raises_no_data (Sample.runtime Sample.unreadable) "AAPL"
                   None None default_start (datetime_ymd 2024 6 1) Sample.empty
                   {| table := []; requests := [("AAPL", "compact")] |}
                   _ _ _ _)).
  - reflexivity.
  - reflexivity.
  - reflexivity.
  - vm_compute. reflexivity.
Defined.



(** ** An inverted range *)

(** C4, as stated, fails: with start 2024-02-01 after end 2024-01-01 the
    call raises nothing.  It sends its request to the provider, saves the
    three fetched quotes and returns the empty frame. *)
Lemma inverted_range_is_not_rejected :
  date_or (Sample.runtime Sample.three_days) (Some "2024-02-01") default_start =
    ok (datetime_ymd 2024 2 1) /\
  date_or (Sample.runtime Sample.three_days) (Some "2024-01-01")
    (now (Sample.runtime Sample.three_days)) = ok (datetime_ymd 2024 1 1) /\
  datetime_ymd 2024 2 1 > datetime_ymd 2024 1 1 /\
  get_ohlcv_data (Sample.runtime Sample.three_days) "AAPL"
    (Some "2024-02-01") (Some "2024-01-01") Sample.empty =
  (ok [], {| table := map (to_record "AAPL") Sample.quotes_of_three_days;
             requests := [("AAPL", "compact")] |}).
Proof. repeat split; vm_compute; reflexivity. Qed.

(** C4, amended.  [get_ohlcv_data] does not compare start with end.  When
    start is after end the range query finds nothing, so the call takes the
    miss path: it sends one request to the provider, and when the fetch
    yields a non-empty list it saves it and returns the empty frame as a
    success. *)
Theorem inverted_range_takes_miss_path (rt : Runtime) (symbol : string)
  (start_date end_date : option string) (start_dt end_dt : datetime) (w : World) :
  date_or rt start_date default_start = ok start_dt ->
  date_or rt end_date (now rt) = ok end_dt ->
  end_dt < start_dt ->
  range_query symbol start_dt end_dt (table w) = [] /\
  requests (snd (get_ohlcv_data rt symbol start_date end_date w)) =
    (requests w ++ [(symbol, "compact")])%list /\
  forall fetched w1,
    unique_keys (table w) ->
    fetch_daily rt symbol "compact" w = (ok fetched, w1) ->
    fetched <> [] ->
    exists added,
      get_ohlcv_data rt symbol start_date end_date w =
      (ok [], {| table := (table w ++ added)%list;
                 requests := (requests w ++ [(symbol, "compact")])%list |}) /\
      save_loop symbol fetched (table w) = ok (table w ++ added)%list.
Proof.
  intros Hs He Hinv.
  assert (Hmiss : range_query symbol start_dt end_dt (table w) = [])
    by now apply range_query_inverted.
  split; [exact Hmiss|]. split; [eapply get_miss_world; eauto|].
  intros fetched w1 Hu Hf Hne.
  destruct (miss_saves_and_filters rt symbol start_date end_date start_dt end_dt
              w w1 fetched Hs He Hmiss Hu Hf Hne)
    as (added & Hget & Hsave & _).
  exists added. split; [|exact Hsave].
  rewrite Hget. f_equal. f_equal. apply filter_none.
  apply Forall_forall. intros row _. now apply in_range_inverted.
Qed.

Lemma inverted_range_takes_miss_path_witness :
  range_query "AAPL" (datetime_ymd 2024 2 1) (datetime_ymd 2024 1 1)
    (table Sample.cached) = [].
Proof.
  refine (proj1 (inverted_range_takes_miss_path (Sample.runtime Sample.three_days)
                   "AAPL" (Some "2024-02-01") (Some "2024-01-01")
                   (datetime_ymd 2024 2 1) (datetime_ymd 2024 1 1) Sample.cached
                   _ _ _)).
  - reflexivity.
  - reflexivity.
  - reflexivity.
Defined.

(** ** What the provider client returns *)

Lemma parse_loop_built (rt : Runtime) (series : list (string * Json))
  (acc : list OHLCVData) :
  Forall (harmless rt) series ->
  parse_loop rt series acc = ok (acc ++ built rt series)%list.
Proof.
  intros H. revert acc. induction H as [|[k v] series Hkv _ IH]; intros acc; simpl.
  - now rewrite app_nil_r.
  - destruct Hkv as [[[key E]|[msg E]]|[o E]]; simpl in E; rewrite E; simpl.
    + apply IH.
    + apply IH.
    + rewrite IH, <- app_assoc. reflexivity.
Qed.

(** Entries in the shape the provider writes them never end the loop, on a
    runtime whose [fromisoformat], [float] of a string and [OHLCVData]
    raise nothing but [ValueError]: such an entry is built or skipped. *)
Section TextEntries.
Variable rt : Runtime.
Hypothesis fromisoformat_raises :
  forall s e, fromisoformat rt s = raised e -> exists msg, e = ValueError msg.
Hypothesis float_raises :
  forall s e, py_float rt (JStr s) = raised e -> exists msg, e = ValueError msg.
Hypothesis init_raises :
  forall ts o h l c v e,
    OHLCVData_init rt ts o h l c v = raised e -> exists msg, e = ValueError msg.

Lemma read_field (fields : list (string * Json)) (key : string) :
  text_fields fields ->
  (exists k, (let? x := getitem (JObj fields) key in py_float rt x) = raised (KeyError k)) \/
  (exists msg, (let? x := getitem (JObj fields) key in py_float rt x) = raised (ValueError msg)) \/
  (exists x, (let? x := getitem (JObj fields) key in py_float rt x) = ok x).
Proof.
  intros Htext. unfold getitem.
  destruct (dict_get key fields) as [v|] eqn:E; simpl; [|eauto].
  destruct (Htext key v E) as [s ->].
  destruct (py_float rt (JStr s)) as [x|e] eqn:Ef; [eauto|].
  destruct (float_raises s e Ef) as [msg ->]. eauto.
Qed.

Lemma text_entry_harmless (timestamp_str : string) (fields : list (string * Json)) :
  text_fields fields -> harmless rt (timestamp_str, JObj fields).
Proof.
  intros Htext. unfold harmless, caught, parse_entry. simpl fst. simpl snd.
  destruct (fromisoformat rt timestamp_str) as [ts|e] eqn:Ets;
    [|destruct (fromisoformat_raises _ _ Ets) as [msg ->]; simpl; eauto].
  cbn [exc_bind].
  destruct (read_field fields "1. open" Htext) as [[k ->]|[[msg ->]|[o ->]]];
    cbn [exc_bind]; eauto.
  destruct (read_field fields "2. high" Htext) as [[k ->]|[[msg ->]|[h ->]]];
    cbn [exc_bind]; eauto.
  destruct (read_field fields "3. low" Htext) as [[k ->]|[[msg ->]|[l ->]]];
    cbn [exc_bind]; eauto.
  destruct (read_field fields "4. close" Htext) as [[k ->]|[[msg ->]|[c ->]]];
    cbn [exc_bind]; eauto.
  destruct (read_field fields "5. volume" Htext) as [[k ->]|[[msg ->]|[v ->]]];
    cbn [exc_bind]; eauto.
  destruct (OHLCVData_init rt ts o h l c v) as [q|e] eqn:Ei; [eauto|].
  destruct (init_raises _ _ _ _ _ _ _ Ei) as [msg ->]. eauto.
Qed.
End TextEntries.

(** An entry that the [except] clause catches is skipped: the outcome is
    the one of the series without it. *)
Lemma caught_entry_is_skipped (rt : Runtime) (pre post : list (string * Json))
  (k : string) (v : Json) :
  caught rt k v ->
  _parse_time_series rt (JObj (pre ++ (k, v) :: post)) =
  _parse_time_series rt (JObj (pre ++ post)).
Proof. intros Hbad. simpl. now rewrite parse_loop_skip. Qed.

(** C7.  The provider client does not skip every entry that cannot be
    read.  The [except] clause of [_parse_time_series] names [KeyError] and
    [ValueError] only, so an entry with a [null] for a price, where [float]
    raises [TypeError], is not skipped and logged as the clause does for a
    missing field or a text that is no number: the exception leaves the loop
    and [fetch_daily] fails as a whole, although the two other entries are
    valid and the same series without the entry is returned, ascending. *)
Theorem null_close_fails_the_whole_fetch :
  fetch_daily (Sample.runtime Sample.null_close) "AAPL" "compact" Sample.empty =
    (raised (OtherError "TypeError"),
     {| table := []; requests := [("AAPL", "compact")] |}) /\
  fetch_daily (Sample.runtime Sample.null_close_left_out) "AAPL" "compact" Sample.empty =
    (ok [Sample.quote 2024 1 2 10 12 9 11 100; Sample.quote 2024 1 4 12 14 11 13 300],
     {| table := []; requests := [("AAPL", "compact")] |}).
Proof. split; vm_compute; reflexivity. Qed.

(** ** The order of the prices *)

Lemma stored_app (symbol : string) (ts : datetime) (rows more : list OHLCVRecord) :
  stored symbol ts rows -> stored symbol ts (rows ++ more).
Proof.
  intros (r & Hin & Hk). exists r. split; [|assumption]. apply in_or_app. now left.
Qed.

(** After a save that returned, every quote of [data] has its row. *)
Lemma save_loop_stores (symbol : string) (data : list OHLCVData)
  (rows rows' : list OHLCVRecord) (o : OHLCVData) :
  save_loop symbol data rows = ok rows' ->
  In o data -> stored symbol (timestamp o) rows'.
Proof.
  revert rows. induction data as [|o' data IH]; intros rows Hsave Hin; [destruct Hin|].
  simpl in Hsave.
  destruct (scalar_one_or_none _) as [existing|e] eqn:Eex; simpl in Hsave; [|discriminate].
  destruct Hin as [->|Hin].
  - destruct existing as [r|].
    + destruct (save_loop_extends _ _ _ _ Hsave) as (added & -> & _).
      apply stored_app, select_by_key_stored.
      destruct (select_by_key symbol (timestamp o) rows); discriminate.
    + destruct (save_loop_extends _ _ _ _ Hsave) as (added & -> & _).
      apply stored_app. exists (to_record symbol o). repeat split.
      apply in_or_app. right. now left.
  - destruct existing; eapply IH; eassumption.
Qed.

(** The outcomes of a refresh, by what it leaves behind. *)
Lemma refresh_outcomes (rt : Runtime) (symbol : string) (w : World) :
  let out := refresh_data rt symbol w in
  (exists status_code detail,
     (status_code = 400 \/ status_code = 500) /\
     out = (raised (HTTPException status_code detail), sent symbol "compact" w)) \/
  (exists fetched added,
     fst (fetch_daily rt symbol "compact" w) = ok fetched /\
     out = (ok (Z.of_nat (List.length fetched)),
            {| table := (table w ++ added)%list;
               requests := (requests w ++ [(symbol, "compact")])%list |}) /\
     save_loop symbol fetched (table w) = ok (table w ++ added)%list /\
     Forall (fun r => exists o, In o fetched /\ r = to_record symbol o) added).
Proof.
  unfold refresh_data, try_except, refresh_body, bind, raise, ret, save_ohlcv_data.
  pose proof (fetch_daily_world rt symbol "compact" w) as Hw.
  destruct (fetch_daily rt symbol "compact" w) as [[fetched|e] w1]; simpl in Hw; subst w1.
  - destruct fetched as [|o fetched]; [left; eauto 8|]. cbn [table sent].
    destruct (save_loop symbol (o :: fetched) (table w)) as [rows|e] eqn:Es.
    + destruct (save_loop_extends _ _ _ _ Es) as (added & -> & Hadded).
      right. exists (o :: fetched), added. repeat split; assumption.
    + left. destruct e; eauto 8.
  - left. destruct e; eauto 8.
Qed.

Lemma high_below_low_disordered (o h l c : float) :
  PrimFloat.ltb h l = true -> ohlc_ordered o h l c = false.
Proof. intros H. unfold ohlc_ordered. rewrite H. simpl. apply andb_false_r. Qed.

(** With the class of the specification, what is built is in order. *)
Lemma parse_entry_ordered (rt : Runtime) (k : string) (v : Json) (q : OHLCVData) :
  validating rt -> parse_entry rt k v = ok q -> quote_ordered q.
Proof.
  intros Hval. unfold parse_entry.
  destruct (fromisoformat rt k) as [ts|e]; [|discriminate]. cbn [exc_bind].
  destruct (let? x := getitem v "1. open" in py_float rt x) as [o|e]; [|discriminate].
  cbn [exc_bind].
  destruct (let? x := getitem v "2. high" in py_float rt x) as [h|e]; [|discriminate].
  cbn [exc_bind].
  destruct (let? x := getitem v "3. low" in py_float rt x) as [l|e]; [|discriminate].
  cbn [exc_bind].
  destruct (let? x := getitem v "4. close" in py_float rt x) as [c|e]; [|discriminate].
  cbn [exc_bind].
  destruct (let? x := getitem v "5. volume" in py_float rt x) as [vol|e]; [|discriminate].
  cbn [exc_bind]. rewrite Hval. unfold OHLCVData_validated.
  destruct (ohlc_ordered o h l c) eqn:E; [|discriminate].
  intros [= <-]. exact E.
Qed.

(** And an entry whose numbers are read but are not in order is refused
    with a [ValueError]. *)
Lemma disordered_entry_caught (rt : Runtime) (k : string) (v : Json)
  (ts : datetime) (o h l c vol : float) :
  validating rt ->
  fromisoformat rt k = ok ts ->
  read_number rt v "1. open" = ok o ->
  read_number rt v "2. high" = ok h ->
  read_number rt v "3. low" = ok l ->
  read_number rt v "4. close" = ok c ->
  read_number rt v "5. volume" = ok vol ->
  ohlc_ordered o h l c = false ->
  caught rt k v.
Proof.
  unfold read_number. intros Hval Hts Ho Hh Hl Hc Hv Hbad.
  right. unfold parse_entry. rewrite Hts. cbn [exc_bind].
  rewrite Ho. cbn [exc_bind]. rewrite Hh. cbn [exc_bind].
  rewrite Hl. cbn [exc_bind]. rewrite Hc. cbn [exc_bind].
  rewrite Hv. cbn [exc_bind]. rewrite Hval. unfold OHLCVData_validated.
  rewrite Hbad. eauto.
Qed.

Lemma fetch_daily_built (rt : Runtime) (symbol outputsize : string) (w w' : World)
  (fetched : list OHLCVData) (o : OHLCVData) :
  fetch_daily rt symbol outputsize w = (ok fetched, w') ->
  In o fetched ->
  exists k v, parse_entry rt k v = ok o.
Proof.
  intros Hf Hin. apply fetch_daily_ok in Hf.
  destruct Hf as (items & ts & _ & _ & _ & _ & _ & _ & Hp & _).
  destruct ts; simpl in Hp; try discriminate.
  destruct (parse_loop rt items0 []) as [l|e] eqn:El; [|discriminate].
  simpl in Hp. injection Hp as <-. apply sorted_by_In in Hin.
  apply (parse_loop_In rt items0 [] l o El) in Hin.
  destruct Hin as [[]|(k & v & _ & Hk)]. eauto.
Qed.

(** The rows that [get_ohlcv_data] appends are rows of quotes that
    [fetch_daily] returned to it. *)
Lemma get_appends_fetched (rt : Runtime) (symbol : string)
  (start_date end_date : option string) (w : World) :
  exists added,
    table (snd (get_ohlcv_data rt symbol start_date end_date w)) =
      (table w ++ added)%list /\
    Forall (fun r => exists fetched w1 o,
                       fetch_daily rt symbol "compact" w = (ok fetched, w1) /\
                       In o fetched /\ r = to_record symbol o) added.
Proof.
  run_get.
  destruct (date_or rt start_date default_start) as [start_dt|e];
    [|exists []; simpl; now rewrite app_nil_r].
  destruct (date_or rt end_date (now rt)) as [end_dt|e];
    [|exists []; simpl; now rewrite app_nil_r].
  destruct (range_query symbol start_dt end_dt (table w)) as [|r rs];
    [|exists []; simpl; now rewrite app_nil_r].
  pose proof (fetch_daily_world rt symbol "compact" w) as Hw.
  destruct (fetch_daily rt symbol "compact" w) as [[fetched|e] w1] eqn:Ef;
    simpl in Hw; subst w1; [|exists []; simpl; now rewrite app_nil_r].
  destruct fetched as [|o fetched]; [exists []; simpl; now rewrite app_nil_r|].
  cbn [table sent].
  destruct (save_loop symbol (o :: fetched) (table w)) as [rows|e] eqn:Es;
    [|exists []; simpl; now rewrite app_nil_r].
  destruct (save_loop_extends _ _ _ _ Es) as (added & -> & Hadded).
  exists added. split; [reflexivity|].
  eapply Forall_impl; [|exact Hadded]. simpl. intros r' (o' & Hin & ->). eauto 8.
Qed.

(** C3.  With [OHLCVData] the class of the specification, a response entry
    whose open, high, low and close are not in the order
    [low <= open, close <= high] (one with [high < low] among them) is
    dropped by [_parse_time_series] like any entry that cannot be read;
    every quote that [fetch_daily] returns has its prices in order; and so
    has every row that [get_ohlcv_data] or the [/refresh] route writes to
    the table. *)
Theorem disordered_quote_is_neither_returned_nor_stored (rt : Runtime) :
  validating rt ->
  (forall pre post k v ts o h l c vol,
     fromisoformat rt k = ok ts ->
     read_number rt v "1. open" = ok o ->
     read_number rt v "2. high" = ok h ->
     read_number rt v "3. low" = ok l ->
     read_number rt v "4. close" = ok c ->
     read_number rt v "5. volume" = ok vol ->
     PrimFloat.ltb h l = true \/ ohlc_ordered o h l c = false ->
     _parse_time_series rt (JObj (pre ++ (k, v) :: post)) =
     _parse_time_series rt (JObj (pre ++ post))) /\
  (forall symbol outputsize w w' fetched,
     fetch_daily rt symbol outputsize w = (ok fetched, w') ->
     Forall quote_ordered fetched) /\
  (forall symbol start_date end_date w,
     exists added,
       table (snd (get_ohlcv_data rt symbol start_date end_date w)) =
         (table w ++ added)%list /\
       Forall record_ordered added) /\
  (forall symbol w,
     exists added,
       table (snd (refresh_data rt symbol w)) = (table w ++ added)%list /\
       Forall record_ordered added).
Proof.
  intros Hval.
  assert (Hfetch : forall symbol outputsize w w' fetched,
             fetch_daily rt symbol outputsize w = (ok fetched, w') ->
             Forall quote_ordered fetched).
  { intros symbol outputsize w w' fetched Hf. apply Forall_forall. intros o Hin.
    destruct (fetch_daily_built rt _ _ _ _ _ o Hf Hin) as (k & v & Hk).
    eapply parse_entry_ordered; eassumption. }
  split; [|split; [exact Hfetch|split]].
  - intros pre post k v ts o h l c vol Hts Ho Hh Hl Hc Hv Hbad.
    apply caught_entry_is_skipped.
    eapply disordered_entry_caught; try eassumption.
    destruct Hbad as [Hlt|Hbad]; [now apply high_below_low_disordered | exact Hbad].
  - intros symbol start_date end_date w.
    destruct (get_appends_fetched rt symbol start_date end_date w)
      as (added & Htable & Hadded).
    exists added. split; [exact Htable|].
    eapply Forall_impl; [|exact Hadded]. simpl.
    intros r (fetched & w1 & o & Hf & Hin & ->).
    pose proof (Hfetch _ _ _ _ _ Hf) as Hall.
    rewrite Forall_forall in Hall. exact (Hall o Hin).
  - intros symbol w.
    destruct (refresh_outcomes rt symbol w)
      as [(sc & d & _ & H)|(fetched & added & Hf & H & _ & Hadded)]; rewrite H.
    + exists []. simpl. split; [now rewrite app_nil_r | constructor].
    + exists added. split; [reflexivity|].
      eapply Forall_impl; [|exact Hadded]. simpl. intros r (o & Hin & ->).
      destruct (fetch_daily rt symbol "compact" w) as [out w1] eqn:Ef.
      simpl in Hf. subst out.
      pose proof (Hfetch _ _ _ _ _ Ef) as Hall.
      rewrite Forall_forall in Hall. exact (Hall o Hin).
Qed.

(** A response with a valid day and a day whose high (5) is below its low
    (10): the fetch returns the valid day alone. *)
Lemma disordered_quote_is_neither_returned_nor_stored_witness :
  fetch_daily (Sample.runtime Sample.one_disordered) "AAPL" "compact" Sample.empty =
    (ok [Sample.quote 2024 1 2 10 12 9 11 100],
     {| table := []; requests := [("AAPL", "compact")] |}) /\
  Forall quote_ordered [Sample.quote 2024 1 2 10 12 9 11 100].
Proof.
  split; [vm_compute; reflexivity|].
  refine (proj1 (proj2 (disordered_quote_is_neither_returned_nor_stored
                          (Sample.runtime Sample.one_disordered) _))
            "AAPL" "compact" Sample.empty
            {| table := []; requests := [("AAPL", "compact")] |} _ _).
  - intros ts o h l c v. reflexivity.
  - vm_compute. reflexivity.
Defined.

(** The validation scenario of the specification: the only fetched record
    has its high below its low; nothing is returned and nothing is stored. *)
Example high_below_low_is_dropped :
  get_ohlcv_data (Sample.runtime Sample.high_below_low) "AAPL"
    (Some "2024-01-01") (Some "2024-01-05") Sample.empty =
  (raised (ValueError "No data returned from Alpha Vantage for AAPL"),
   {| table := []; requests := [("AAPL", "compact")] |}).
Proof. vm_compute. reflexivity. Qed.

(** ** Saving twice *)

(** Every table the program can build from an empty one has unique keys:
    saving keeps them unique. *)
Lemma save_keeps_unique_keys (symbol : string) (data : list OHLCVData) (w : World) :
  unique_keys (table w) ->
  unique_keys (table (snd (save_ohlcv_data symbol data w))).
Proof.
  intros Hu. unfold save_ohlcv_data.
  destruct (save_loop_spec symbol data (table w) Hu) as (added & -> & Hu' & _).
  exact Hu'.
Qed.

Lemma save_twice (symbol : string) (data : list OHLCVData) (w : World) :
  unique_keys (table w) ->
  exists added,
    let w1 := {| table := (table w ++ added)%list; requests := requests w |} in
    save_ohlcv_data symbol data w = (ok tt, w1) /\
    Forall (fun r => exists o, In o data /\ r = to_record symbol o /\
                               ~ stored symbol (timestamp o) (table w)) added /\
    unique_keys (table w1) /\
    save_ohlcv_data symbol data w1 = (ok tt, w1).
Proof.
  intros Hu.
  destruct (save_loop_spec symbol data (table w) Hu) as (added & Hs & Hu' & Hadded & Hall).
  exists added. unfold save_ohlcv_data. rewrite Hs. simpl.
  repeat split; try assumption.
  rewrite (save_loop_noop symbol data _ Hu' Hall). reflexivity.
Qed.

Lemma refresh_data_ok (rt : Runtime) (symbol : string) (w w1 : World) (n : Z) :
  refresh_data rt symbol w = (ok n, w1) ->
  exists data rows,
    fetch_daily rt symbol "compact" w = (ok data, sent symbol "compact" w) /\
    data <> [] /\
    save_loop symbol data (table w) = ok rows /\
    n = Z.of_nat (List.length data) /\
    w1 = {| table := rows; requests := (requests w ++ [(symbol, "compact")])%list |}.
Proof.
  unfold refresh_data, try_except, refresh_body, bind, raise, ret, save_ohlcv_data.
  pose proof (fetch_daily_world rt symbol "compact" w) as Hw.
  destruct (fetch_daily rt symbol "compact" w) as [[data|e] w']; simpl in Hw; subst w'.
  - destruct data as [|o data]; [discriminate|].
    cbn [table sent].
    destruct (save_loop symbol (o :: data) (table w)) as [rows|e] eqn:Es.
    + intros [= <- <-]. exists (o :: data), rows.
      repeat split; [discriminate | exact Es].
    + destruct e; discriminate.
  - destruct e; discriminate.
Qed.

Lemma refresh_twice (rt : Runtime) (symbol : string) (w w1 : World) (n : Z) :
  unique_keys (table w) ->
  refresh_data rt symbol w = (ok n, w1) ->
  unique_keys (table w1) /\
  refresh_data rt symbol w1 =
  (ok n, {| table := table w1;
            requests := (requests w1 ++ [(symbol, "compact")])%list |}).
Proof.
  intros Hu Hr. apply refresh_data_ok in Hr.
  destruct Hr as (data & rows & Hf & Hne & Hs & -> & ->).
  destruct (save_loop_spec symbol data (table w) Hu) as (added & Hs' & Hu' & _ & Hall).
  rewrite Hs in Hs'. injection Hs' as ->. split; [exact Hu'|].
  unfold refresh_data, try_except, refresh_body, bind, ret, save_ohlcv_data.
  rewrite (fetch_daily_again rt _ _ _ _
             {| table := (table w ++ added)%list;
                requests := (requests w ++ [(symbol, "compact")])%list |} _ Hf).
  destruct data as [|o data]; [congruence|]. cbn [table sent].
  rewrite (save_loop_noop symbol (o :: data) _ Hu' Hall). reflexivity.
Qed.

(** C6.  On a table with unique keys, [save_ohlcv_data] appends a row only
    for a quote whose [(symbol, timestamp)] the table did not hold, and
    leaves the keys unique; saving the same quotes again changes nothing.
    So a [/refresh] that succeeds leaves unique keys, and a second one with
    the same upstream answer succeeds with the same count and the same
    table. *)
Theorem save_twice_leaves_unique_keys (rt : Runtime) (symbol : string) (w : World) :
  unique_keys (table w) ->
  (forall data,
     exists added,
       let w1 := {| table := (table w ++ added)%list; requests := requests w |} in
       save_ohlcv_data symbol data w = (ok tt, w1) /\
       Forall (fun r => exists o, In o data /\ r = to_record symbol o /\
                                  ~ stored symbol (timestamp o) (table w)) added /\
       unique_keys (table w1) /\
       save_ohlcv_data symbol data w1 = (ok tt, w1)) /\
  (forall n w1,
     refresh_data rt symbol w = (ok n, w1) ->
     unique_keys (table w1) /\
     exists w2,
       refresh_data rt symbol w1 = (ok n, w2) /\
       table w2 = table w1 /\
       unique_keys (table w2)).
Proof.
  intros Hu. split.
  - intros data. now apply save_twice.
  - intros n w1 Hr. destruct (refresh_twice rt symbol w w1 n Hu Hr) as [Hu1 Hr1].
    split; [exact Hu1|]. eexists. split; [exact Hr1|]. split; [reflexivity|exact Hu1].
Qed.

Lemma save_twice_leaves_unique_keys_witness :
  unique_keys (table Sample.cached) /\
  exists w2,
    refresh_data (Sample.runtime Sample.three_days) "AAPL"
      {| table := table Sample.cached; requests := [("AAPL", "compact")] |} =
    (ok 3, w2) /\
    table w2 = table Sample.cached /\
    unique_keys (table w2).
Proof.
  refine (proj2 (save_twice_leaves_unique_keys (Sample.runtime Sample.three_days)
                   "AAPL" Sample.empty _)
            3 {| table := table Sample.cached; requests := [("AAPL", "compact")] |}
            _).
  - constructor.
  - vm_compute. reflexivity.
Defined.

(** ** The rate limit *)

(** C8.  On a miss, when the response of the provider carries the
    rate-limit indicator (a ["Note"], and no ["Error Message"] before it),
    [get_ohlcv_data] raises the [ValueError] of [fetch_daily] as it is, with
    its own message, and the table is as before: one request was sent and
    nothing was written.  No other response makes the call raise this
    exception, so the caller can tell it from every other failure. *)
Theorem rate_limit_is_raised_as_is (rt : Runtime) (symbol : string)
  (start_date end_date : option string) (start_dt end_dt : datetime) (w : World)
  (data : Json) :
  date_or rt start_date default_start = ok start_dt ->
  date_or rt end_date (now rt) = ok end_dt ->
  range_query symbol start_dt end_dt (table w) = [] ->
  upstream rt symbol "compact" = ok data ->
  let out := get_ohlcv_data rt symbol start_date end_date w in
  (forall items,
     data = JObj items ->
     dict_get "Error Message" items = None ->
     dict_contains "Note" items = true ->
     out = (raised (ValueError rate_limit_message),
            {| table := table w;
               requests := (requests w ++ [(symbol, "compact")])%list |})) /\
  (fst out = raised (ValueError rate_limit_message) ->
   exists items,
     data = JObj items /\
     dict_get "Error Message" items = None /\
     dict_contains "Note" items = true).
Proof.
  intros Hs He Hmiss Hup out. split.
  - intros items -> Herr Hnote. unfold out.
    erewrite get_miss_raised; eauto.
    now rewrite (fetch_daily_note rt symbol "compact" w items Hup Herr Hnote).
  - unfold out. intros Hout.
    apply (fetch_daily_rate_limited rt symbol "compact" w data Hup).
    destruct (fetch_daily rt symbol "compact" w) as [[fetched|e] w1] eqn:Ef.
    + exfalso. destruct fetched as [|o fetched].
      * erewrite get_miss_empty in Hout; eauto. discriminate.
      * destruct (save_loop symbol (o :: fetched) (table w1)) as [rows|e] eqn:Es.
        -- erewrite get_miss_saved in Hout; eauto; discriminate.
        -- erewrite get_miss_save_raised in Hout; eauto; [|discriminate].
           apply save_loop_raised in Es. subst e. discriminate.
    + erewrite get_miss_raised in Hout; eauto. simpl in *. congruence.
Qed.

Lemma rate_limit_is_raised_as_is_witness :
  get_ohlcv_data (Sample.runtime Sample.rate_limited) "AAPL" None None Sample.empty =
  (raised (ValueError rate_limit_message),
   {| table := []; requests := [("AAPL", "compact")] |}).
Proof.
  refine (proj1 (rate_limit_is_raised_as_is (Sample.runtime Sample.rate_limited) "AAPL"
                   None None default_start (datetime_ymd 2024 6 1) Sample.empty
                   (JObj [("Note", JStr "Thank you for using Alpha Vantage!")])
                   _ _ _ _)
            [("Note", JStr "Thank you for using Alpha Vantage!")] _ _ _).
  - reflexivity.
  - reflexivity.
  - reflexivity.
  - reflexivity.
  - reflexivity.
  - reflexivity.
  - reflexivity.
Defined.

(** ** The case of the symbol *)

(** C9, as stated, fails: with the three days stored for ["AAPL"], a query
    for ["aapl"] finds nothing; the call for ["aapl"] asks the provider for
    ["aapl"] and writes a second series under ["aapl"]. *)
Lemma other_case_is_another_series :
  range_query "AAPL" (datetime_ymd 2024 1 1) (datetime_ymd 2024 1 5)
    (table Sample.cached) = map (to_record "AAPL") Sample.quotes_of_three_days /\
  range_query "aapl" (datetime_ymd 2024 1 1) (datetime_ymd 2024 1 5)
    (table Sample.cached) = [] /\
  get_ohlcv_data (Sample.runtime Sample.three_days) "aapl"
    (Some "2024-01-01") (Some "2024-01-05") Sample.cached =
  (ok (_ohlcv_to_dataframe Sample.quotes_of_three_days),
   {| table := (map (to_record "AAPL") Sample.quotes_of_three_days
                ++ map (to_record "aapl") Sample.quotes_of_three_days)%list;
      requests := [("aapl", "compact")] |}).
Proof. repeat split; vm_compute; reflexivity. Qed.

(** C9, amended.  The symbol is used as the caller wrote it, without any
    change of case, on the write path and on the read path alike: a save
    writes its rows under exactly that string, a range query returns rows
    of exactly that string, so what was saved under a symbol is read back
    under the same string, and a save under one string changes nothing of
    what any other string reads, however close. *)
Theorem symbol_is_used_verbatim (symbol other : string) (data : list OHLCVData)
  (rows rows' : list OHLCVRecord) (lo hi : datetime) :
  save_loop symbol data rows = ok rows' ->
  (exists added, rows' = (rows ++ added)%list /\
                 Forall (fun r => rec_symbol r = symbol) added) /\
  (forall r, In r (range_query symbol lo hi rows') -> rec_symbol r = symbol) /\
  (forall o, In o data -> lo <= timestamp o <= hi ->
             exists r, In r (range_query symbol lo hi rows') /\
                       rec_timestamp r = timestamp o) /\
  (other <> symbol -> range_query other lo hi rows' = range_query other lo hi rows).
Proof.
  intros Hsave.
  destruct (save_loop_extends _ _ _ _ Hsave) as (added & Hrows & Hadded).
  assert (Hsym : Forall (fun r => rec_symbol r = symbol) added).
  { eapply Forall_impl; [|exact Hadded]. simpl. intros r (o & _ & ->). reflexivity. }
  split; [eauto|]. split; [|split].
  - intros r Hr. apply range_query_In in Hr. tauto.
  - intros o Hin Hrange.
    destruct (save_loop_stores _ _ _ _ o Hsave Hin) as (r & Hr & Hs & Ht).
    exists r. split; [|assumption]. apply range_query_In. rewrite Ht. tauto.
  - intros Hneq. subst rows'. unfold range_query. rewrite filter_app.
    rewrite (filter_none _ added); [now rewrite app_nil_r|].
    eapply Forall_impl; [|exact Hsym]. simpl. intros r Hr.
    apply andb_false_iff. left. apply String.eqb_neq. congruence.
Qed.

Lemma symbol_is_used_verbatim_witness :
  exists added,
    (map (to_record "AAPL") Sample.quotes_of_three_days
     ++ map (to_record "aapl") Sample.quotes_of_three_days)%list =
    (table Sample.cached ++ added)%list /\
    Forall (fun r => rec_symbol r = "aapl") added.
Proof.
  refine (proj1 (symbol_is_used_verbatim "aapl" "AAPL" Sample.quotes_of_three_days
                   (table Sample.cached)
                   (map (to_record "AAPL") Sample.quotes_of_three_days
                    ++ map (to_record "aapl") Sample.quotes_of_three_days)%list
                   (datetime_ymd 2024 1 1) (datetime_ymd 2024 1 5) _)).
  vm_compute. reflexivity.
Defined.

(** * Further properties of the code *)

(** ** [fetch_daily] and [_parse_time_series] *)

(** A loop that returns has met only entries that were built or dropped,
    and returns what was built. *)
Lemma parse_loop_ok (rt : Runtime) (items : list (string * Json))
  (acc l : list OHLCVData) :
  parse_loop rt items acc = ok l -> l = (acc ++ built rt items)%list.
Proof.
  revert acc. induction items as [|[k v] rest IH]; intros acc; simpl.
  - intros [= <-]. now rewrite app_nil_r.
  - destruct (parse_entry rt k v) as [o|[key|msg|sc d|msg]]; simpl;
      try discriminate; intros H; apply IH in H; subst l; try reflexivity.
    now rewrite <- app_assoc.
Qed.

Lemma built_length (rt : Runtime) (items : list (string * Json)) :
  (List.length (built rt items) <= List.length items)%nat.
Proof.
  induction items as [|[k v] rest IH]; simpl; [lia|].
  destruct (parse_entry rt k v); simpl; lia.
Qed.

Lemma parse_time_series_uncaught (rt : Runtime) (time_series : Json) (e : Exn) :
  _parse_time_series rt time_series = raised e -> uncaught e.
Proof.
  destruct time_series; simpl; try (intros [= <-]; split; discriminate).
  destruct (parse_loop rt items []) eqn:E; simpl; [discriminate|].
  intros [= <-]. now apply parse_loop_raised in E.
Qed.

(** X1.  With a dict as body, [fetch_daily] returns a list exactly when the
    body has no ["Error Message"], no ["Note"], no ["Information"], and a
    ["Time Series (Daily)"] that is not empty and that [_parse_time_series]
    reads to that list. *)
Theorem fetch_daily_succeeds_iff (rt : Runtime) (symbol outputsize : string)
  (w : World) (items : list (string * Json)) (l : list OHLCVData) :
  upstream rt symbol outputsize = ok (JObj items) ->
  fst (fetch_daily rt symbol outputsize w) = ok l <->
  dict_get "Error Message" items = None /\
  dict_contains "Note" items = false /\
  dict_get "Information" items = None /\
  exists time_series,
    dict_get "Time Series (Daily)" items = Some time_series /\
    truthy time_series = true /\
    _parse_time_series rt time_series = ok l.
Proof.
  intros Hup. split.
  - intros H. destruct (fetch_daily rt symbol outputsize w) as [out w1] eqn:Ef.
    simpl in H. subst out. apply fetch_daily_ok in Ef.
    destruct Ef as (items' & ts & Hup' & Herr & Hnote & Hinfo & Hts & Ht & Hp & _).
    rewrite Hup in Hup'. injection Hup' as <-. eauto 8.
  - intros (Herr & Hnote & Hinfo & ts & Hts & Ht & Hp).
    unfold fetch_daily, bind, client_get, lift.
    rewrite Hup, Herr, Hnote, Hinfo, Hts, Ht. simpl. exact Hp.
Qed.

Lemma fetch_daily_succeeds_iff_witness :
  fst (fetch_daily (Sample.runtime Sample.three_days) "AAPL" "compact" Sample.empty) =
    ok Sample.quotes_of_three_days <->
  dict_get "Error Message"
    [("Meta Data", JObj []);
     ("Time Series (Daily)",
      JObj [Sample.entry "2024-01-04" "12" "14" "11" "13" "300";
            Sample.entry "2024-01-03" "11" "13" "10" "12" "200";
            Sample.entry "2024-01-02" "10" "12" "9" "11" "100"])] = None /\
  dict_contains "Note"
    [("Meta Data", JObj []);
     ("Time Series (Daily)",
      JObj [Sample.entry "2024-01-04" "12" "14" "11" "13" "300";
            Sample.entry "2024-01-03" "11" "13" "10" "12" "200";
            Sample.entry "2024-01-02" "10" "12" "9" "11" "100"])] = false /\
  dict_get "Information"
    [("Meta Data", JObj []);
     ("Time Series (Daily)",
      JObj [Sample.entry "2024-01-04" "12" "14" "11" "13" "300";
            Sample.entry "2024-01-03" "11" "13" "10" "12" "200";
            Sample.entry "2024-01-02" "10" "12" "9" "11" "100"])] = None /\
  exists time_series,
    dict_get "Time Series (Daily)"
      [("Meta Data", JObj []);
       ("Time Series (Daily)",
        JObj [Sample.entry "2024-01-04" "12" "14" "11" "13" "300";
              Sample.entry "2024-01-03" "11" "13" "10" "12" "200";
              Sample.entry "2024-01-02" "10" "12" "9" "11" "100"])] = Some time_series /\
    truthy time_series = true /\
    _parse_time_series (Sample.runtime Sample.three_days) time_series =
      ok Sample.quotes_of_three_days.
Proof.
  exact (fetch_daily_succeeds_iff (Sample.runtime Sample.three_days) "AAPL" "compact"
           Sample.empty _ Sample.quotes_of_three_days eq_refl).
Defined.

(** X2.  Once the provider has delivered a body, [fetch_daily] raises no
    [KeyError]: a key missing in the body or in an entry never reaches the
    caller as such. *)
Theorem fetch_daily_raises_no_key_error (rt : Runtime) (symbol outputsize : string)
  (w : World) (data : Json) (key : string) :
  upstream rt symbol outputsize = ok data ->
  fst (fetch_daily rt symbol outputsize w) <> raised (KeyError key).
Proof.
  intros Hup. unfold fetch_daily, bind, client_get, raise, lift. rewrite Hup.
  destruct data; try discriminate.
  destruct (dict_get "Error Message" items); [discriminate|].
  destruct (dict_contains "Note" items); [discriminate|].
  destruct (dict_get "Information" items); [discriminate|].
  destruct (negb _); [discriminate|]. simpl.
  destruct (_parse_time_series rt _) as [l|e] eqn:E; [discriminate|].
  apply parse_time_series_uncaught in E. destruct E as [E _].
  intros [= ->]. now apply (E key).
Qed.

Lemma fetch_daily_raises_no_key_error_witness :
  fst (fetch_daily (Sample.runtime Sample.unreadable) "AAPL" "compact" Sample.empty) <>
  raised (KeyError "3. low").
Proof.
  exact (fetch_daily_raises_no_key_error (Sample.runtime Sample.unreadable)
           "AAPL" "compact" Sample.empty _ "3. low" eq_refl).
Defined.

(** X3.  What [_parse_time_series] returns for a dict is the list of the
    objects that could be built, sorted: a rearrangement of them, nothing
    added and nothing repeated, at most one per entry. *)
Theorem parse_time_series_returns_built (rt : Runtime)
  (items : list (string * Json)) (l : list OHLCVData) :
  _parse_time_series rt (JObj items) = ok l ->
  l = sorted_by timestamp (built rt items) /\
  Permutation (built rt items) l /\
  (List.length l <= List.length items)%nat.
Proof.
  simpl. destruct (parse_loop rt items []) as [l'|e] eqn:E; simpl; [|discriminate].
  intros [= <-]. apply parse_loop_ok in E. simpl in E. subst l'.
  split; [reflexivity|]. split; [apply sorted_by_perm|].
  rewrite <- (Permutation_length (sorted_by_perm timestamp (built rt items))).
  apply built_length.
Qed.

Lemma parse_time_series_returns_built_witness :
  [Sample.quote 2024 1 2 10 12 9 11 100; Sample.quote 2024 1 3 11 13 10 12 200] =
  sorted_by timestamp
    (built (Sample.runtime Sample.one_bad_entry)
       [Sample.entry "2024-01-03" "11" "13" "10" "12" "200";
        ("2024-01-04", JObj [("1. open", JStr "12"); ("2. high", JStr "14");
                             ("3. low", JStr "11"); ("4. close", JStr "13")]);
        Sample.entry "2024-01-02" "10" "12" "9" "11" "100"]).
Proof.
  refine (proj1 (parse_time_series_returns_built (Sample.runtime Sample.one_bad_entry)
                   _ _ _)).
  vm_compute. reflexivity.
Defined.

(** X5.  An entry whose construction raises an exception that is neither a
    [KeyError] nor a [ValueError] (a [TypeError] for a [null] price, for
    one) is not skipped: when the entries before it were built or dropped,
    [_parse_time_series] raises that exception and returns nothing,
    whatever the other entries hold. *)
Theorem uncaught_entry_fails_the_parse (rt : Runtime)
  (pre post : list (string * Json)) (k : string) (v : Json) (e : Exn) :
  Forall (harmless rt) pre ->
  parse_entry rt k v = raised e ->
  uncaught e ->
  _parse_time_series rt (JObj (pre ++ (k, v) :: post)) = raised e.
Proof.
  intros Hpre He [Hkey Hval]. simpl.
  assert (H : forall acc, parse_loop rt (pre ++ (k, v) :: post) acc = raised e).
  { induction Hpre as [|[k' v'] pre Hkv _ IH]; intros acc; simpl.
    - rewrite He. destruct e; try reflexivity.
      + now destruct (Hkey key).
      + now destruct (Hval msg).
    - destruct Hkv as [[[key E]|[msg E]]|[o E]]; simpl in E; rewrite E; apply IH. }
  now rewrite H.
Qed.

Lemma uncaught_entry_fails_the_parse_witness :
  fst (fetch_daily (Sample.runtime Sample.null_price) "AAPL" "compact" Sample.empty) =
  raised (OtherError "TypeError").
Proof.
  unfold fetch_daily, bind, client_get, lift. cbn -[_parse_time_series].
  refine (uncaught_entry_fails_the_parse (Sample.runtime Sample.null_price)
            [Sample.entry "2024-01-04" "12" "14" "11" "13" "300"]
            [Sample.entry "2024-01-02" "10" "12" "9" "11" "100"]
            "2024-01-03" _ (OtherError "TypeError") _ _ _).
  - constructor; [|constructor]. right. eexists. vm_compute. reflexivity.
  - vm_compute. reflexivity.
  - split; discriminate.
Defined.

(** ** [fetch_intraday] *)

(** X6.  A body without the time series of the interval (or with an empty
    one), and without ["Error Message"] and ["Note"], makes [fetch_intraday]
    return the empty list as a success, an ["Information"] in it
    notwithstanding; [fetch_daily] raises a [ValueError] on a body of that
    kind. *)
Theorem fetch_intraday_without_series (rt : Runtime)
  (upstream_intraday : string -> string -> Exc Json)
  (symbol interval outputsize : string) (w : World) (items : list (string * Json)) :
  dict_get "Error Message" items = None ->
  dict_contains "Note" items = false ->
  (upstream_intraday symbol interval = ok (JObj items) ->
   dict_get ("Time Series (" ++ interval ++ ")") items = None \/
   dict_get ("Time Series (" ++ interval ++ ")") items = Some (JObj []) ->
   fetch_intraday rt upstream_intraday symbol interval w =
   (ok [], sent symbol "compact" w)) /\
  (upstream rt symbol outputsize = ok (JObj items) ->
   dict_get "Time Series (Daily)" items = None \/
   dict_get "Time Series (Daily)" items = Some (JObj []) ->
   exists msg,
     fetch_daily rt symbol outputsize w =
     (raised (ValueError msg), sent symbol outputsize w)).
Proof.
  intros Herr Hnote. split.
  - intros Hup Hts. unfold fetch_intraday, bind, client_get_intraday, lift.
    rewrite Hup, Herr, Hnote. destruct Hts as [-> | ->]; reflexivity.
  - intros Hup Hts. unfold fetch_daily, bind, client_get, raise, lift.
    rewrite Hup, Herr, Hnote.
    destruct (dict_get "Information" items); [eauto|].
    destruct Hts as [-> | ->]; simpl; eauto.
Qed.

Lemma fetch_intraday_without_series_witness :
  fetch_intraday (Sample.runtime Sample.three_days)
    (fun _ _ => ok (JObj [("Information", JStr "premium endpoint")]))
    "AAPL" "5min" Sample.empty =
  (ok [], {| table := []; requests := [("AAPL", "compact")] |}).
Proof.
  refine (proj1 (fetch_intraday_without_series (Sample.runtime Sample.three_days)
                   (fun _ _ => ok (JObj [("Information", JStr "premium endpoint")]))
                   "AAPL" "5min" "compact" Sample.empty
                   [("Information", JStr "premium endpoint")] _ _) _ _).
  - reflexivity.
  - reflexivity.
  - reflexivity.
  - left. reflexivity.
Defined.

(** X7.  When [fetch_intraday] returns a list, the list is ascending by
    timestamp, the body was a dict without ["Error Message"] and ["Note"],
    and exactly one request went out while the table stayed as it was. *)
Theorem fetch_intraday_ok (rt : Runtime)
  (upstream_intraday : string -> string -> Exc Json)
  (symbol interval : string) (w w' : World) (l : list OHLCVData) :
  fetch_intraday rt upstream_intraday symbol interval w = (ok l, w') ->
  ascending timestamp l /\
  w' = sent symbol "compact" w /\
  exists items,
    upstream_intraday symbol interval = ok (JObj items) /\
    dict_get "Error Message" items = None /\
    dict_contains "Note" items = false.
Proof.
  unfold fetch_intraday, bind, client_get_intraday, raise, lift.
  destruct (upstream_intraday symbol interval) as [data|e]; [|discriminate].
  destruct data; try discriminate.
  - destruct (occurs_in "Error Message" s); [discriminate|].
    destruct (occurs_in "Note" s); discriminate.
  - destruct (existsb _ items); [discriminate|].
    destruct (existsb _ items); discriminate.
  - destruct (dict_get "Error Message" items) eqn:Eerr; [discriminate|].
    destruct (dict_contains "Note" items) eqn:Enote; [discriminate|].
    intros [= Hp <-]. split; [|split; [reflexivity|eauto]].
    eapply parse_time_series_ascending; eassumption.
Qed.

Lemma fetch_intraday_ok_witness :
  ascending timestamp
    [Sample.quote 2024 1 2 10 12 9 11 100; Sample.quote 2024 1 3 11 13 10 12 200].
Proof.
  refine (proj1 (fetch_intraday_ok (Sample.runtime Sample.three_days)
                   (fun _ interval =>
                      ok (JObj [("Time Series (" ++ interval ++ ")",
                                 JObj [Sample.entry "2024-01-03" "11" "13" "10" "12" "200";
                                       Sample.entry "2024-01-02" "10" "12" "9" "11" "100"])]))
                   "AAPL" "60min" Sample.empty
                   {| table := []; requests := [("AAPL", "compact")] |} _ _)).
  vm_compute. reflexivity.
Defined.

(** ** Saving and querying *)

(** A query for one instant is the lookup by key, sorted. *)
Lemma point_query_is_select (symbol : string) (ts : datetime) (rows : list OHLCVRecord) :
  range_query symbol ts ts rows = sorted_by rec_timestamp (select_by_key symbol ts rows).
Proof.
  unfold range_query, select_by_key. f_equal. apply filter_ext. intros r.
  f_equal. unfold in_range.
  destruct (Z.eqb_spec (rec_timestamp r) ts) as [->|Hne].
  - now rewrite Z.leb_refl.
  - destruct (Z.leb_spec ts (rec_timestamp r)), (Z.leb_spec (rec_timestamp r) ts);
      simpl; try reflexivity; lia.
Qed.

(** With unique keys, the query for the instant of a row returns it alone. *)
Lemma point_query_single (rows : list OHLCVRecord) (r : OHLCVRecord) :
  unique_keys rows ->
  In r rows ->
  range_query (rec_symbol r) (rec_timestamp r) (rec_timestamp r) rows = [r].
Proof.
  intros Hu Hin. rewrite point_query_is_select.
  assert (Hsel : In r (select_by_key (rec_symbol r) (rec_timestamp r) rows))
    by (apply select_by_key_In; tauto).
  destruct (select_by_key_unique (rec_symbol r) (rec_timestamp r) rows Hu)
    as [E|[r' E]]; rewrite E in *.
  - destruct Hsel.
  - destruct Hsel as [->|[]]. reflexivity.
Qed.

(** X8.  Both bounds of a range query are inclusive, and keys that are
    unique make its answer single: a stored row is returned by every query
    for its symbol whose range holds its instant, the bounds themselves
    included; asked from that instant to that instant, the query returns
    that row and no other. *)
Theorem point_query_returns_the_row (rows : list OHLCVRecord) (r : OHLCVRecord) :
  unique_keys rows ->
  In r rows ->
  (forall lo hi,
     lo <= rec_timestamp r <= hi ->
     In r (range_query (rec_symbol r) lo hi rows)) /\
  In r (range_query (rec_symbol r) (rec_timestamp r) (rec_timestamp r) rows) /\
  range_query (rec_symbol r) (rec_timestamp r) (rec_timestamp r) rows = [r].
Proof.
  intros Hu Hin. split; [|split].
  - intros lo hi Hr. apply range_query_In. tauto.
  - apply range_query_In. repeat split; [assumption|lia|lia].
  - now apply point_query_single.
Qed.

Lemma point_query_returns_the_row_witness :
  range_query "AAPL" (datetime_ymd 2024 1 3) (datetime_ymd 2024 1 3)
    (table Sample.cached) =
  [to_record "AAPL" (Sample.quote 2024 1 3 11 13 10 12 200)].
Proof.
  refine (proj2 (proj2 (point_query_returns_the_row (table Sample.cached)
            (to_record "AAPL" (Sample.quote 2024 1 3 11 13 10 12 200)) _ _))).
  - repeat constructor; simpl; intros H;
      repeat (destruct H as [H|H]; [discriminate H|]); exact H.
  - right. left. reflexivity.
Defined.

(** X9.  A save never rewrites a row: on a table with unique keys, whatever
    is saved under whatever symbol, a row that was there is still what a
    query for its key returns, with the values it had.  On a key that
    exists the new values are ignored. *)
Theorem save_leaves_existing_rows (symbol : string) (data : list OHLCVData)
  (rows : list OHLCVRecord) (r : OHLCVRecord) :
  unique_keys rows ->
  In r rows ->
  exists rows',
    save_loop symbol data rows = ok rows' /\
    range_query (rec_symbol r) (rec_timestamp r) (rec_timestamp r) rows' = [r].
Proof.
  intros Hu Hin.
  destruct (save_loop_spec symbol data rows Hu) as (added & Hsave & Hu' & _).
  exists (rows ++ added)%list. split; [exact Hsave|].
  apply point_query_single; [exact Hu'|]. apply in_or_app. now left.
Qed.

Lemma save_leaves_existing_rows_witness :
  exists rows',
    save_loop "AAPL" [Sample.quote 2024 1 3 7 5 10 7 100] (table Sample.cached) =
      ok rows' /\
    range_query "AAPL" (datetime_ymd 2024 1 3) (datetime_ymd 2024 1 3) rows' =
      [to_record "AAPL" (Sample.quote 2024 1 3 11 13 10 12 200)].
Proof.
  refine (save_leaves_existing_rows "AAPL" [Sample.quote 2024 1 3 7 5 10 7 100]
            (table Sample.cached)
            (to_record "AAPL" (Sample.quote 2024 1 3 11 13 10 12 200)) _ _).
  - repeat constructor; simpl; intros H;
      repeat (destruct H as [H|H]; [discriminate H|]); exact H.
  - right. left. reflexivity.
Defined.

Lemma is_stored_spec (symbol : string) (rows : list OHLCVRecord) (o : OHLCVData) :
  is_stored symbol rows o = true <-> stored symbol (timestamp o) rows.
Proof.
  rewrite <- select_by_key_stored. unfold is_stored.
  destruct (select_by_key symbol (timestamp o) rows); split; congruence.
Qed.

(** The rows a save appends, when no two quotes share a timestamp: one for
    each quote whose key the table did not hold, in the order of the
    quotes. *)
Lemma save_loop_exact (symbol : string) (data : list OHLCVData) (rows : list OHLCVRecord) :
  unique_keys rows ->
  NoDup (map timestamp data) ->
  save_loop symbol data rows =
  ok (rows ++ map (to_record symbol)
                  (filter (fun o => negb (is_stored symbol rows o)) data))%list.
Proof.
  intros Hu Hnd. revert rows Hu.
  induction data as [|o data IH]; intros rows Hu; simpl.
  - now rewrite app_nil_r.
  - inversion Hnd as [|? ? Hnotin Hnd']; subst.
    unfold is_stored at 1.
    destruct (select_by_key_unique symbol (timestamp o) rows Hu) as [Hsel|[r Hsel]];
      rewrite Hsel; simpl.
    + rewrite (IH Hnd' _ (unique_keys_snoc rows (to_record symbol o) Hu Hsel)).
      rewrite <- app_assoc. simpl.
      replace (filter (fun o' => negb (is_stored symbol (rows ++ [to_record symbol o]) o')) data)
        with (filter (fun o' => negb (is_stored symbol rows o')) data); [reflexivity|].
      apply filter_ext_in. intros o' Hin. f_equal. unfold is_stored.
      rewrite select_by_key_app. simpl.
      destruct (Z.eqb_spec (timestamp o) (timestamp o')) as [Heq|Hne].
      * exfalso. apply Hnotin. rewrite Heq. now apply in_map.
      * rewrite andb_false_r. now rewrite app_nil_r.
    + now apply IH.
Qed.

(** X10.  What is saved can be read back: on a table with unique keys that
    did not hold its key, a quote of a save (no two quotes of which share a
    timestamp) is returned by the query for its instant, as the row built
    from it, field for field. *)
Theorem save_then_query_round_trip (symbol : string) (data : list OHLCVData)
  (rows : list OHLCVRecord) (o : OHLCVData) :
  unique_keys rows ->
  NoDup (map timestamp data) ->
  In o data ->
  ~ stored symbol (timestamp o) rows ->
  exists rows',
    save_loop symbol data rows = ok rows' /\
    range_query symbol (timestamp o) (timestamp o) rows' = [to_record symbol o].
Proof.
  intros Hu Hnd Hin Hns.
  destruct (save_loop_spec symbol data rows Hu) as (added & Hsave & Hu' & _).
  exists (rows ++ added)%list. split; [exact Hsave|].
  apply (point_query_single _ (to_record symbol o) Hu').
  rewrite (save_loop_exact symbol data rows Hu Hnd) in Hsave. injection Hsave as Hsave.
  apply app_inv_head in Hsave. subst added.
  apply in_or_app. right. apply in_map. apply filter_In. split; [exact Hin|].
  destruct (is_stored symbol rows o) eqn:E; [|reflexivity].
  apply is_stored_spec in E. contradiction.
Qed.

Lemma save_then_query_round_trip_witness :
  exists rows',
    save_loop "MSFT" Sample.quotes_of_three_days (table Sample.cached) = ok rows' /\
    range_query "MSFT" (datetime_ymd 2024 1 4) (datetime_ymd 2024 1 4) rows' =
      [to_record "MSFT" (Sample.quote 2024 1 4 12 14 11 13 300)].
Proof.
  refine (save_then_query_round_trip "MSFT" Sample.quotes_of_three_days
            (table Sample.cached) (Sample.quote 2024 1 4 12 14 11 13 300) _ _ _ _).
  - repeat constructor; simpl; intros H;
      repeat (destruct H as [H|H]; [discriminate H|]); exact H.
  - repeat constructor; simpl; intros H;
      repeat (destruct H as [H|H]; [discriminate H|]); exact H.
  - right. right. left. reflexivity.
  - intros (r & Hr & Hs & _). simpl in Hr.
    repeat (destruct Hr as [<-|Hr]; [discriminate Hs|]). exact Hr.
Defined.

Lemma save_loop_duplicate (symbol : string) (data : list OHLCVData)
  (rows : list OHLCVRecord) (o : OHLCVData) :
  In o data ->
  (2 <= List.length (select_by_key symbol (timestamp o) rows))%nat ->
  save_loop symbol data rows = raised (OtherError "MultipleResultsFound").
Proof.
  revert rows. induction data as [|o' data IH]; intros rows Hin Hlen; [destruct Hin|].
  simpl. destruct (scalar_one_or_none _) as [existing|e] eqn:Es; simpl.
  - destruct Hin as [->|Hin].
    + exfalso. destruct (select_by_key symbol (timestamp o) rows) as [|r [|r' l]];
        simpl in *; try lia; discriminate.
    + destruct existing; apply IH; try assumption.
      rewrite select_by_key_app, length_app. lia.
  - f_equal. destruct (select_by_key symbol (timestamp o') rows) as [|r [|r' l]];
      simpl in Es; congruence.
Qed.

(** X11.  When the table holds two rows or more for the key of one of the
    quotes to save, [save_ohlcv_data] raises the [MultipleResultsFound] of
    [scalar_one_or_none], and nothing is committed: the table is as it
    was, also for the quotes that came before. *)
Theorem save_raises_on_duplicate_key (symbol : string) (data : list OHLCVData)
  (w : World) (o : OHLCVData) :
  In o data ->
  (2 <= List.length (select_by_key symbol (timestamp o) (table w)))%nat ->
  save_ohlcv_data symbol data w = (raised (OtherError "MultipleResultsFound"), w).
Proof.
  intros Hin Hlen. unfold save_ohlcv_data.
  now rewrite (save_loop_duplicate symbol data (table w) o Hin Hlen).
Qed.

Lemma save_raises_on_duplicate_key_witness :
  save_ohlcv_data "AAPL" Sample.quotes_of_three_days Sample.doubled =
  (raised (OtherError "MultipleResultsFound"), Sample.doubled).
Proof.
  refine (save_raises_on_duplicate_key "AAPL" Sample.quotes_of_three_days
            Sample.doubled (Sample.quote 2024 1 3 11 13 10 12 200) _ _).
  - right. left. reflexivity.
  - simpl. apply le_n.
Defined.

(** ** [get_ohlcv_data] of the warehouse *)

(** X12.  A date that [parse_date] refuses stops [get_ohlcv_data] before it
    has done anything: the exception of [parse_date] is raised as it is,
    the table is not queried and no request is sent.  The start date is
    read first. *)
Theorem bad_date_raises_before_any_effect (rt : Runtime) (symbol : string)
  (start_date end_date : option string) (w : World) (e : Exn) :
  date_or rt start_date default_start = raised e \/
  ((exists start_dt, date_or rt start_date default_start = ok start_dt) /\
   date_or rt end_date (now rt) = raised e) ->
  get_ohlcv_data rt symbol start_date end_date w = (raised e, w).
Proof.
  intros [Hs|[[start_dt Hs] He]]; run_get; rewrite Hs; [reflexivity|].
  now rewrite He.
Qed.

Lemma bad_date_raises_before_any_effect_witness :
  get_ohlcv_data (Sample.runtime Sample.three_days) "AAPL"
    (Some "2024-01-01") (Some "01/05/2024") Sample.cached =
  (raised (ValueError "Invalid isoformat string: 01/05/2024"), Sample.cached).
Proof.
  refine (bad_date_raises_before_any_effect (Sample.runtime Sample.three_days) "AAPL"
            (Some "2024-01-01") (Some "01/05/2024") Sample.cached _ _).
  right. split; [eexists|]; reflexivity.
Defined.

(** The outcomes of a call, by what it leaves behind. *)
Lemma get_outcomes (rt : Runtime) (symbol : string)
  (start_date end_date : option string) (w : World) :
  let out := get_ohlcv_data rt symbol start_date end_date w in
  (snd out = w) \/
  (exists e, out = (raised e, sent symbol "compact" w)) \/
  (exists df fetched added,
     out = (ok df, {| table := (table w ++ added)%list;
                      requests := (requests w ++ [(symbol, "compact")])%list |}) /\
     save_loop symbol fetched (table w) = ok (table w ++ added)%list /\
     Forall (fun r => exists o, In o fetched /\ r = to_record symbol o) added).
Proof.
  run_get.
  destruct (date_or rt start_date default_start) as [start_dt|e]; [|now left].
  destruct (date_or rt end_date (now rt)) as [end_dt|e]; [|now left].
  destruct (range_query symbol start_dt end_dt (table w)) as [|r rs]; [|now left].
  pose proof (fetch_daily_world rt symbol "compact" w) as Hw.
  destruct (fetch_daily rt symbol "compact" w) as [[fetched|e] w1]; simpl in Hw; subst w1;
    [|right; left; eauto].
  destruct fetched as [|o fetched]; [right; left; eauto|].
  cbn [table sent].
  destruct (save_loop symbol (o :: fetched) (table w)) as [rows|e] eqn:Es;
    [|right; left; eauto].
  destruct (save_loop_extends _ _ _ _ Es) as (added & -> & Hadded).
  right. right. eauto 8.
Qed.

(** X13.  [get_ohlcv_data] only ever appends to the table: whatever the
    inputs and the outcome, the table it leaves is the one it found,
    followed by rows of the symbol it was called with; and it sends no
    request, or one request for that symbol with output size ["compact"]. *)
Theorem get_only_appends (rt : Runtime) (symbol : string)
  (start_date end_date : option string) (w : World) :
  let w' := snd (get_ohlcv_data rt symbol start_date end_date w) in
  (exists added,
     table w' = (table w ++ added)%list /\
     Forall (fun r => rec_symbol r = symbol) added) /\
  (requests w' = requests w \/
   requests w' = (requests w ++ [(symbol, "compact")])%list).
Proof.
  destruct (get_outcomes rt symbol start_date end_date w)
    as [H|[[e H]|(df & fetched & added & H & _ & Hadded)]]; cbv zeta; rewrite H.
  - split; [|now left]. exists []. now rewrite app_nil_r.
  - split; [|now right]. exists []. simpl. now rewrite app_nil_r.
  - split; [|now right]. exists added. split; [reflexivity|].
    eapply Forall_impl; [|exact Hadded]. simpl. intros r (o & _ & ->). reflexivity.
Qed.

(** X14.  A call that raises has written nothing: the table is as it was
    found, whichever step raised. *)
Theorem get_failure_changes_no_row (rt : Runtime) (symbol : string)
  (start_date end_date : option string) (w : World) (e : Exn) :
  fst (get_ohlcv_data rt symbol start_date end_date w) = raised e ->
  table (snd (get_ohlcv_data rt symbol start_date end_date w)) = table w.
Proof.
  destruct (get_outcomes rt symbol start_date end_date w)
    as [H|[[e' H]|(df & fetched & added & H & _)]]; rewrite H.
  - reflexivity.
  - reflexivity.
  - discriminate.
Qed.

Lemma get_failure_changes_no_row_witness :
  table (snd (get_ohlcv_data (Sample.runtime Sample.rate_limited) "MSFT" None None
                Sample.cached)) = table Sample.cached.
Proof.
  refine (get_failure_changes_no_row (Sample.runtime Sample.rate_limited) "MSFT"
            None None Sample.cached (ValueError rate_limit_message) _).
  vm_compute. reflexivity.
Defined.

(** X15.  Unique keys are an invariant of the program: [get_ohlcv_data] and
    the [/refresh] route, whatever they are asked and however they end,
    leave a table whose keys are unique when they found one. *)
Theorem entry_points_keep_unique_keys (rt : Runtime) (symbol : string)
  (start_date end_date : option string) (w : World) :
  unique_keys (table w) ->
  unique_keys (table (snd (get_ohlcv_data rt symbol start_date end_date w))) /\
  unique_keys (table (snd (refresh_data rt symbol w))).
Proof.
  intros Hu. split.
  - destruct (get_outcomes rt symbol start_date end_date w)
      as [H|[[e H]|(df & fetched & added & H & Hsave & _)]]; rewrite H; try exact Hu.
    destruct (save_loop_spec symbol fetched (table w) Hu) as (added' & Hsave' & Hu' & _).
    rewrite Hsave in Hsave'. injection Hsave' as ->. exact Hu'.
  - destruct (refresh_outcomes rt symbol w)
      as [(sc & d & _ & H)|(fetched & added & _ & H & Hsave & _)]; rewrite H;
      try exact Hu.
    destruct (save_loop_spec symbol fetched (table w) Hu) as (added' & Hsave' & Hu' & _).
    rewrite Hsave in Hsave'. injection Hsave' as ->. exact Hu'.
Qed.

Lemma entry_points_keep_unique_keys_witness :
  unique_keys (table (snd (get_ohlcv_data (Sample.runtime Sample.three_days) "MSFT"
                             None None Sample.cached))) /\
  unique_keys (table (snd (refresh_data (Sample.runtime Sample.three_days) "MSFT"
                             Sample.cached))).
Proof.
  refine (entry_points_keep_unique_keys (Sample.runtime Sample.three_days) "MSFT"
            None None Sample.cached _).
  repeat constructor; simpl; intros H;
    repeat (destruct H as [H|H]; [discriminate H|]); exact H.
Defined.

(** ** A miss, then a hit *)

Lemma filter_filter_implied {A : Type} (f g : A -> bool) (l : list A) :
  (forall x, In x l -> f x = true -> g x = true) ->
  filter f (filter g l) = filter f l.
Proof.
  induction l as [|x l IH]; intros H; simpl; [reflexivity|].
  assert (IH' : filter f (filter g l) = filter f l)
    by (apply IH; intros y Hy; apply H; now right).
  destruct (g x) eqn:Eg; simpl.
  - now rewrite IH'.
  - destruct (f x) eqn:Ef; [|exact IH'].
    rewrite (H x (or_introl eq_refl) Ef) in Eg. discriminate.
Qed.

Lemma sorted_by_nil {A : Type} (key : A -> Z) (l : list A) :
  sorted_by key l = [] -> l = [].
Proof.
  intros H. pose proof (sorted_by_perm key l) as Hp. rewrite H in Hp.
  now apply Permutation_sym, Permutation_nil in Hp.
Qed.

Lemma records_of_quotes_frame (symbol : string) (l : list OHLCVData) :
  _records_to_dataframe (map (to_record symbol) l) = _ohlcv_to_dataframe l.
Proof. unfold _records_to_dataframe, _ohlcv_to_dataframe. now rewrite map_map. Qed.

Lemma frame_filter (lo hi : datetime) (l : list OHLCVData) :
  filter_by_date_range lo hi (_ohlcv_to_dataframe l) =
  _ohlcv_to_dataframe (filter (in_range timestamp lo hi) l).
Proof.
  unfold filter_by_date_range, _ohlcv_to_dataframe. now rewrite filter_map_swap.
Qed.

(** The range query on a table that held nothing in the range, after a save
    of ascending quotes with distinct timestamps. *)
Lemma range_query_after_save (symbol : string) (lo hi : datetime)
  (rows : list OHLCVRecord) (fetched : list OHLCVData) :
  range_query symbol lo hi rows = [] ->
  ascending timestamp fetched ->
  range_query symbol lo hi
    (rows ++ map (to_record symbol)
                 (filter (fun o => negb (is_stored symbol rows o)) fetched)) =
  map (to_record symbol) (filter (in_range timestamp lo hi) fetched).
Proof.
  intros Hmiss Hasc. unfold range_query in *. apply sorted_by_nil in Hmiss.
  rewrite filter_app, Hmiss, filter_map_swap. simpl.
  rewrite (filter_ext _ (in_range timestamp lo hi)).
  2:{ intros o. simpl. now rewrite String.eqb_refl. }
  rewrite filter_filter_implied.
  - apply sorted_by_fixed. apply map_ascending with (kA := timestamp); [reflexivity|].
    now apply filter_ascending.
  - intros o _ Hin. destruct (is_stored symbol rows o) eqn:E; [|reflexivity].
    exfalso. apply is_stored_spec in E. destruct E as (r & Hr & Hsym & Hts).
    assert (Hf : In r (filter (fun r => String.eqb (rec_symbol r) symbol
                                        && in_range rec_timestamp lo hi r) rows)).
    { apply filter_In. split; [exact Hr|]. apply andb_true_iff. split.
      - now apply String.eqb_eq.
      - unfold in_range in *. now rewrite Hts. }
    rewrite Hmiss in Hf. exact Hf.
Qed.

(** X16.  After a miss that fetched and returned something, the same
    request is a hit and returns the same frame.  The second call reads the
    clock anew: it runs at any later reading [later] of it, and is taken
    with an end date that comes to the same instant as in the first call,
    as it does whenever the end date is given.  Then, when no two fetched
    quotes share a timestamp and the frame of the first call is not empty,
    the second call returns that frame again, from the table, sending no
    request and writing nothing. *)
Theorem miss_then_hit (rt : Runtime) (symbol : string)
  (start_date end_date : option string) (start_dt end_dt later : datetime)
  (w w1 : World) (fetched : list OHLCVData) :
  date_or rt start_date default_start = ok start_dt ->
  date_or rt end_date (now rt) = ok end_dt ->
  date_or rt end_date later = ok end_dt ->
  range_query symbol start_dt end_dt (table w) = [] ->
  unique_keys (table w) ->
  fetch_daily rt symbol "compact" w = (ok fetched, w1) ->
  NoDup (map timestamp fetched) ->
  filter_by_date_range start_dt end_dt (_ohlcv_to_dataframe fetched) <> [] ->
  exists df w2,
    df <> [] /\
    get_ohlcv_data rt symbol start_date end_date w = (ok df, w2) /\
    get_ohlcv_data (at_time rt later) symbol start_date end_date w2 = (ok df, w2).
Proof.
  intros Hs He He' Hmiss Hu Hf Hnd Hdf.
  assert (Hne : fetched <> []) by (intros ->; now apply Hdf).
  pose proof (fetch_daily_world rt symbol "compact" w) as Hw.
  rewrite Hf in Hw. simpl in Hw. subst w1.
  pose proof (save_loop_exact symbol fetched (table w) Hu Hnd) as Hsave.
  set (kept := filter (in_range timestamp start_dt end_dt) fetched).
  set (w2 := {| table := (table w ++ map (to_record symbol)
                            (filter (fun o => negb (is_stored symbol (table w) o))
                                    fetched))%list;
                requests := requests (sent symbol "compact" w) |}).
  assert (Hasc : ascending timestamp fetched)
    by (eapply fetch_daily_ascending; eassumption).
  assert (Hq : range_query symbol start_dt end_dt (table w2) = map (to_record symbol) kept)
    by (apply range_query_after_save; assumption).
  assert (Hkept : map (to_record symbol) kept <> []).
  { intros E. apply Hdf. rewrite frame_filter. apply map_eq_nil in E.
    fold kept. now rewrite E. }
  exists (filter_by_date_range start_dt end_dt (_ohlcv_to_dataframe fetched)), w2.
  split; [exact Hdf|]. split.
  - eapply get_miss_saved; eauto.
  - rewrite (get_hit (at_time rt later) symbol start_date end_date start_dt end_dt w2
               Hs He' _ Hq Hkept).
    now rewrite records_of_quotes_frame, frame_filter.
Qed.

(** The second call runs a month after the first, with both dates given. *)
Lemma miss_then_hit_witness :
  exists df w2,
    df <> [] /\
    get_ohlcv_data (Sample.runtime Sample.three_days) "AAPL"
      (Some "2024-01-03") (Some "2024-01-05") Sample.empty = (ok df, w2) /\
    get_ohlcv_data (at_time (Sample.runtime Sample.three_days) (datetime_ymd 2024 7 1))
      "AAPL" (Some "2024-01-03") (Some "2024-01-05") w2 = (ok df, w2).
Proof.
  refine (miss_then_hit (Sample.runtime Sample.three_days) "AAPL"
            (Some "2024-01-03") (Some "2024-01-05")
            (datetime_ymd 2024 1 3) (datetime_ymd 2024 1 5) (datetime_ymd 2024 7 1)
            Sample.empty
            {| table := []; requests := [("AAPL", "compact")] |}
            Sample.quotes_of_three_days _ _ _ _ _ _ _ _).
  - reflexivity.
  - reflexivity.
  - reflexivity.
  - reflexivity.
  - constructor.
  - vm_compute. reflexivity.
  - repeat constructor; simpl; intros H;
      repeat (destruct H as [H|H]; [discriminate H|]); exact H.
  - vm_compute. discriminate.
Defined.

(** ** The [/refresh] route *)

Lemma save_loop_length (symbol : string) (data : list OHLCVData)
  (rows rows' : list OHLCVRecord) :
  save_loop symbol data rows = ok rows' ->
  (List.length rows' <= List.length rows + List.length data)%nat.
Proof.
  revert rows. induction data as [|o data IH]; intros rows; simpl.
  - intros [= <-]. lia.
  - destruct (scalar_one_or_none _) as [[r|]|e]; simpl; [| |discriminate]; intros H;
      apply IH in H; [lia|]. rewrite length_app in H. simpl in H. lia.
Qed.

(** X17.  [refresh_data] answers a failure with status 400 or 500 and no
    other: the 404 it raises for an empty fetch is inside its own [try] and
    comes out as a 500.  A refresh that fails has sent its one request and
    written nothing. *)
Theorem refresh_fails_with_400_or_500 (rt : Runtime) (symbol : string)
  (w w1 : World) (e : Exn) :
  refresh_data rt symbol w = (raised e, w1) ->
  (exists detail, e = HTTPException 400 detail \/ e = HTTPException 500 detail) /\
  table w1 = table w /\
  requests w1 = (requests w ++ [(symbol, "compact")])%list.
Proof.
  intros H.
  destruct (refresh_outcomes rt symbol w)
    as [(sc & d & Hsc & H')|(fetched & added & _ & H' & _)];
    rewrite H in H'; [|discriminate].
  injection H' as -> ->. split; [|split; reflexivity].
  exists d. destruct Hsc as [-> | ->]; tauto.
Qed.

Lemma refresh_fails_with_400_or_500_witness :
  (exists detail,
     HTTPException 500 "Error refreshing data: 404: No data returned for symbol AAPL" =
       HTTPException 400 detail \/
     HTTPException 500 "Error refreshing data: 404: No data returned for symbol AAPL" =
       HTTPException 500 detail) /\
  table {| table := table Sample.cached; requests := [("AAPL", "compact")] |} =
    table Sample.cached /\
  requests {| table := table Sample.cached; requests := [("AAPL", "compact")] |} =
    (requests Sample.cached ++ [("AAPL", "compact")])%list.
Proof.
  refine (refresh_fails_with_400_or_500 (Sample.runtime Sample.unreadable) "AAPL"
            Sample.cached _ _ _).
  vm_compute. reflexivity.
Defined.

(** X18.  How [refresh_data] maps what [fetch_daily] does: a [ValueError]
    becomes a 400 whose detail is the message of the error (so a rate limit
    is a 400); an empty list becomes a 500 that quotes the 404 raised for
    it; any other exception becomes a 500 that quotes it. *)
Theorem refresh_error_mapping (rt : Runtime) (symbol : string) (w : World) :
  (forall msg,
     fst (fetch_daily rt symbol "compact" w) = raised (ValueError msg) ->
     fst (refresh_data rt symbol w) = raised (HTTPException 400 msg)) /\
  (fst (fetch_daily rt symbol "compact" w) = ok [] ->
   fst (refresh_data rt symbol w) =
   raised (HTTPException 500
             ("Error refreshing data: " ++
              str_http_exception rt 404 ("No data returned for symbol " ++ symbol)))) /\
  (forall e,
     fst (fetch_daily rt symbol "compact" w) = raised e ->
     (forall msg, e <> ValueError msg) ->
     fst (refresh_data rt symbol w) =
     raised (HTTPException 500 ("Error refreshing data: " ++ str_exn rt e))).
Proof.
  unfold refresh_data, try_except, refresh_body, bind, raise.
  destruct (fetch_daily rt symbol "compact" w) as [[fetched|e] w1]; simpl.
  - split; [discriminate|]. split; [|discriminate]. now intros [= ->].
  - split; [|split; [discriminate|]].
    + now intros msg [= ->].
    + intros e' [= <-] Hne. destruct e; try reflexivity. now destruct (Hne msg).
Qed.

Lemma refresh_error_mapping_witness :
  fst (refresh_data (Sample.runtime Sample.rate_limited) "AAPL" Sample.empty) =
  raised (HTTPException 400 rate_limit_message).
Proof.
  refine (proj1 (refresh_error_mapping (Sample.runtime Sample.rate_limited) "AAPL"
                   Sample.empty) rate_limit_message _).
  vm_compute. reflexivity.
Defined.

(** X19.  The count a refresh reports is the number of quotes fetched, not
    the number of rows written: it is at least one, and the rows appended
    to the table are at most that many, possibly none. *)
Theorem refresh_reports_fetched_count (rt : Runtime) (symbol : string)
  (w w1 : World) (n : Z) :
  refresh_data rt symbol w = (ok n, w1) ->
  exists fetched added,
    fst (fetch_daily rt symbol "compact" w) = ok fetched /\
    n = Z.of_nat (List.length fetched) /\
    1 <= n /\
    table w1 = (table w ++ added)%list /\
    (List.length added <= List.length fetched)%nat.
Proof.
  intros H.
  destruct (refresh_outcomes rt symbol w)
    as [(sc & d & _ & H')|(fetched & added & Hf & H' & Hsave & _)];
    rewrite H in H'; [discriminate|].
  assert (Hne : fetched <> []).
  { apply refresh_data_ok in H. destruct H as (data & rows & Hf' & Hne & _).
    rewrite Hf' in Hf. simpl in Hf. congruence. }
  injection H' as -> ->. exists fetched, added.
  split; [exact Hf|]. split; [reflexivity|].
  apply save_loop_length in Hsave. rewrite length_app in Hsave.
  split; [|split; [reflexivity | lia]].
  destruct fetched; [congruence|]. simpl List.length. lia.
Qed.

Lemma refresh_reports_fetched_count_witness :
  exists fetched added,
    fst (fetch_daily (Sample.runtime Sample.three_days) "AAPL" "compact" Sample.cached) =
      ok fetched /\
    3 = Z.of_nat (List.length fetched) /\
    1 <= 3 /\
    table {| table := table Sample.cached; requests := [("AAPL", "compact")] |} =
      (table Sample.cached ++ added)%list /\
    (List.length added <= List.length fetched)%nat.
Proof.
  refine (refresh_reports_fetched_count (Sample.runtime Sample.three_days) "AAPL"
            Sample.cached _ 3 _).
  vm_compute. reflexivity.
Defined.

(** ** The [/ohlcv] route *)

Section OhlcvRouteFacts.
Variable rt : Runtime.
Variables (T R : Type).
Variable dataframe_to_ohlcv : DataFrame -> Exc T.
Variable OHLCVResponse_init : string -> T -> bool -> Exc R.

Let route := Routes.get_ohlcv_data rt T R dataframe_to_ohlcv OHLCVResponse_init.

(** The outcomes of the route, by the outcome of the warehouse. *)
Lemma ohlcv_route_outcomes (symbol : string) (start_date end_date : option string)
  (w : World) :
  let inner := get_ohlcv_data rt symbol start_date end_date w in
  let out := route symbol start_date end_date w in
  snd out = snd inner /\
  ((exists status_code detail,
      (status_code = 400 \/ status_code = 500) /\
      fst out = raised (HTTPException status_code detail)) \/
   (exists df data r,
      df <> [] /\
      fst inner = ok df /\
      dataframe_to_ohlcv df = ok data /\
      OHLCVResponse_init symbol data true = ok r /\
      fst out = ok r)).
Proof.
  unfold route, Routes.get_ohlcv_data, Routes.ohlcv_body, try_except, bind, raise, lift.
  destruct (get_ohlcv_data rt symbol start_date end_date w) as [[df|e] w1]; simpl.
  - destruct df as [|row df].
    + split; [reflexivity|]. left. do 2 eexists. split; [|reflexivity]. tauto.
    + destruct (dataframe_to_ohlcv (row :: df)) as [data|e] eqn:Ed; simpl.
      * change (0 <? Z.pos (Pos.of_succ_nat (List.length df))) with true.
        destruct (OHLCVResponse_init symbol data true) as [r|e] eqn:Er; simpl.
        -- split; [reflexivity|]. right. exists (row :: df), data, r.
           repeat split; try assumption; try reflexivity. discriminate.
        -- split; [destruct e; reflexivity|]. left.
           destruct e; do 2 eexists; (split; [|reflexivity]); tauto.
      * split; [destruct e; reflexivity|]. left.
        destruct e; do 2 eexists; (split; [|reflexivity]); tauto.
  - split; [destruct e; reflexivity|]. left.
    destruct e; do 2 eexists; (split; [|reflexivity]); tauto.
Qed.

(** X20.  The [/ohlcv] route answers a failure with status 400 or 500 and
    no other: the 404 it raises for an empty frame is inside its own [try]
    and comes out as a 500. *)
Theorem ohlcv_route_fails_with_400_or_500 (symbol : string)
  (start_date end_date : option string) (w : World) (e : Exn) :
  fst (route symbol start_date end_date w) = raised e ->
  exists detail, e = HTTPException 400 detail \/ e = HTTPException 500 detail.
Proof.
  intros H.
  destruct (ohlcv_route_outcomes symbol start_date end_date w)
    as [_ [(sc & d & Hsc & H')|(df & data & r & _ & _ & _ & _ & H')]];
    fold route in H'; rewrite H in H'; [|discriminate].
  injection H' as ->. exists d. destruct Hsc as [-> | ->]; tauto.
Qed.

(** X21.  Whenever the route answers, the response was built with
    [cached=True]: the flag is computed from a frame already known not to
    be empty, so it says nothing about where the data came from.  The
    route adds no effect of its own to those of the warehouse. *)
Theorem ohlcv_route_cached_is_always_true (symbol : string)
  (start_date end_date : option string) (w : World) (r : R) :
  fst (route symbol start_date end_date w) = ok r ->
  snd (route symbol start_date end_date w) =
    snd (get_ohlcv_data rt symbol start_date end_date w) /\
  exists df data,
    df <> [] /\
    fst (get_ohlcv_data rt symbol start_date end_date w) = ok df /\
    dataframe_to_ohlcv df = ok data /\
    OHLCVResponse_init symbol data true = ok r.
Proof.
  intros H.
  destruct (ohlcv_route_outcomes symbol start_date end_date w)
    as [Hw [(sc & d & _ & H')|(df & data & r' & Hne & Hin & Hd & Hr & H')]];
    fold route in H', Hw; rewrite H in H'; [discriminate|].
  injection H' as ->. split; [exact Hw|]. eauto 8.
Qed.

(** X22.  How the route maps what the warehouse does: a [ValueError] (a
    date that cannot be read, a rate limit, an upstream error message, an
    empty fetch) becomes a 400 whose detail is the message of the error; an
    empty frame (nothing in the range) becomes a 500 that quotes the 404
    raised for it. *)
Theorem ohlcv_route_error_mapping (symbol : string)
  (start_date end_date : option string) (w : World) :
  (forall msg,
     fst (get_ohlcv_data rt symbol start_date end_date w) = raised (ValueError msg) ->
     fst (route symbol start_date end_date w) = raised (HTTPException 400 msg)) /\
  (fst (get_ohlcv_data rt symbol start_date end_date w) = ok [] ->
   fst (route symbol start_date end_date w) =
   raised (HTTPException 500
             ("Error fetching data: " ++
              str_http_exception rt 404 ("No data found for symbol " ++ symbol)))).
Proof.
  unfold route, Routes.get_ohlcv_data, Routes.ohlcv_body, try_except, bind, raise, lift.
  destruct (get_ohlcv_data rt symbol start_date end_date w) as [[df|e] w1]; simpl.
  - split; [discriminate|]. now intros [= ->].
  - split; [|discriminate]. now intros msg [= ->].
Qed.
End OhlcvRouteFacts.

Lemma ohlcv_route_fails_with_400_or_500_witness :
  exists detail,
    HTTPException 500 "Error fetching data: 404: No data found for symbol AAPL" =
      HTTPException 400 detail \/
    HTTPException 500 "Error fetching data: 404: No data found for symbol AAPL" =
      HTTPException 500 detail.
Proof.
  refine (ohlcv_route_fails_with_400_or_500 (Sample.runtime Sample.three_days)
            DataFrame (string * DataFrame * bool) ok (fun s d c => ok (s, d, c))
            "AAPL" (Some "2023-01-01") (Some "2023-12-31") Sample.empty _ _).
  vm_compute. reflexivity.
Defined.

Lemma ohlcv_route_cached_is_always_true_witness :
  snd (Routes.get_ohlcv_data (Sample.runtime Sample.three_days)
         DataFrame (string * DataFrame * bool) ok (fun s d c => ok (s, d, c))
         "AAPL" (Some "2024-01-01") (Some "2024-01-05") Sample.empty) =
    snd (get_ohlcv_data (Sample.runtime Sample.three_days) "AAPL"
           (Some "2024-01-01") (Some "2024-01-05") Sample.empty) /\
  exists df data,
    df <> [] /\
    fst (get_ohlcv_data (Sample.runtime Sample.three_days) "AAPL"
           (Some "2024-01-01") (Some "2024-01-05") Sample.empty) = ok df /\
    ok df = ok data /\
    ok ("AAPL", data, true) =
    ok ("AAPL", _ohlcv_to_dataframe Sample.quotes_of_three_days, true).
Proof.
  refine (ohlcv_route_cached_is_always_true (Sample.runtime Sample.three_days)
            DataFrame (string * DataFrame * bool) ok (fun s d c => ok (s, d, c))
            "AAPL" (Some "2024-01-01") (Some "2024-01-05") Sample.empty
            ("AAPL", _ohlcv_to_dataframe Sample.quotes_of_three_days, true) _).
  vm_compute. reflexivity.
Defined.

Lemma ohlcv_route_error_mapping_witness :
  fst (Routes.get_ohlcv_data (Sample.runtime Sample.rate_limited)
         DataFrame (string * DataFrame * bool) ok (fun s d c => ok (s, d, c))
         "AAPL" None None Sample.empty) =
  raised (HTTPException 400 rate_limit_message).
Proof.
  refine (proj1 (ohlcv_route_error_mapping (Sample.runtime Sample.rate_limited)
                   DataFrame (string * DataFrame * bool) ok (fun s d c => ok (s, d, c))
                   "AAPL" None None Sample.empty) rate_limit_message _).
  vm_compute. reflexivity.
Defined.
